(** * test-execute-processor.py: a shallow embedding

    The script is one sequential program that talks to its surroundings:
    it reads two environment variables, one local file and four random
    bytes, sends up to four HTTP requests, prints, sleeps, and terminates
    either by falling off its end, by [exit(1)], or with an exception nobody
    catches.  The surroundings are a [world] record; the script is a
    computation in a small trace-and-termination monad over that record. *)

From Stdlib Require Import ZArith List String Ascii Bool Lia.
From Stdlib Require Import Init.Byte.
From Stdlib Require Import Floats.SpecFloat.
Import ListNotations.

Open Scope string_scope.
Open Scope Z_scope.

#[local] Set Warnings "-register-all".

(** ** Python values produced by [response.json()] *)

Inductive json : Type :=
| JNone                                   (* null, Python None *)
| JBool (b : bool)
| JInt (z : Z)
| JFloat (f : spec_float)
| JStr (s : string)
| JList (l : list json)
| JDict (kv : list (string * json)).

(** Python truth value, as used by [if not x] and [if runs]. *)
Definition truthy (v : json) : bool :=
  match v with
  | JNone => false
  | JBool b => b
  | JInt z => negb (z =? 0)
  | JFloat (S754_zero _) => false
  | JFloat _ => true
  | JStr s => negb (String.eqb s "")
  | JList l => match l with [] => false | _ => true end
  | JDict kv => match kv with [] => false | _ => true end
  end.

(** Truth value of the result of [os.getenv]: [None] and the empty string
    are both false. *)
Definition env_truthy (v : option string) : bool :=
  match v with
  | None => false
  | Some s => negb (String.eqb s "")
  end.

(** A dict is kept as the list of its items; a parsed JSON object holds each
    key once, and lookup takes the first item with the key. *)
Fixpoint dict_lookup (k : string) (kv : list (string * json)) : option json :=
  match kv with
  | [] => None
  | (k', v) :: rest => if String.eqb k k' then Some v else dict_lookup k rest
  end.

(** ** Exceptions the script can die of *)

Inductive exn : Type :=
| OSError               (* open() of the test file *)
| RequestException      (* requests.post / requests.get: no response *)
| JSONDecodeError       (* response.json() on a body that is not JSON *)
| IndexError
| KeyError
| TypeError
| AttributeError.

(** ** Text

    f-strings that interpolate a value coming from a JSON body are kept as
    their fragments; the rendering of an arbitrary value by [str] or
    [json.dumps] is not needed by any property below. *)

Inductive frag : Type :=
| Lit (s : string)
| Fmt (v : json)                  (* {v} inside an f-string *)
| Dumps (v : json) (indent : Z).  (* json.dumps(v, indent=...) *)

Definition fstr := list frag.

(** ** HTTP *)

Inductive verb := GET | POST.

Inductive payload : Type :=
| NoBody
| Data (bytes : list byte)        (* data=... *)
| Json (v : json).                (* json=... *)

Record request : Type := mkRequest {
  method : verb;
  url : fstr;
  headers : list (string * string);
  body : payload;
  timeout : option Z
}.

Record response : Type := mkResponse {
  status_code : Z;
  text : string;
  json_body : option json         (* None: response.json() raises *)
}.

Inductive reply : Type :=
| Resp (r : response)
| NoResp.                         (* connection error, timeout, ... *)

(** ** The surroundings of one run *)

Record world : Type := mkWorld {
  env_anon : option string;       (* NEXT_PUBLIC_SUPABASE_PUBLISHABLE_OR_ANON_KEY *)
  env_service : option string;    (* SUPABASE_SERVICE_ROLE_KEY *)
  test_file : option (list byte); (* contents of test-document.txt, if readable *)
  urandom4 : list byte;           (* what os.urandom(4) returns *)
  http : list request -> request -> reply
                                  (* the remote side: requests sent so far,
                                     the request now sent, what comes back *)
}.

(** ** Events, outcomes and the monad *)

Inductive event : Type :=
| EPrint (line : fstr)
| ESend (r : request)
| ESleep (secs : Z).

Definition trace := list event.

Fixpoint sent (tr : trace) : list request :=
  match tr with
  | [] => []
  | ESend r :: rest => r :: sent rest
  | _ :: rest => sent rest
  end.

Inductive outcome (A : Type) : Type :=
| Ret (a : A)
| Exit (code : Z)
| Raise (e : exn).

Arguments Ret {A} a.
Arguments Exit {A} code.
Arguments Raise {A} e.

Definition M (A : Type) : Type := world -> trace -> trace * outcome A.

Definition ret {A} (a : A) : M A := fun _ tr => (tr, Ret a).

Definition bind {A B} (m : M A) (k : A -> M B) : M B :=
  fun w tr =>
    match m w tr with
    | (tr', Ret a) => k a w tr'
    | (tr', Exit c) => (tr', Exit c)
    | (tr', Raise e) => (tr', Raise e)
    end.

Declare Scope py_scope.
Delimit Scope py_scope with py.
Notation "x <- m ;; k" := (bind m (fun x => k))
  (at level 100, m at next level, right associativity) : py_scope.
Notation "m ;; k" := (bind m (fun _ => k))
  (at level 100, right associativity) : py_scope.
Open Scope py_scope.

Definition print (line : fstr) : M unit :=
  fun _ tr => ((tr ++ [EPrint line])%list, Ret tt).

Definition exit {A} (code : Z) : M A := fun _ tr => (tr, Exit code).

Definition raise {A} (e : exn) : M A := fun _ tr => (tr, Raise e).

Definition sleep (secs : Z) : M unit :=
  fun _ tr => ((tr ++ [ESleep secs])%list, Ret tt).

Definition ask {A} (f : world -> A) : M A := fun w tr => (tr, Ret (f w)).

(** [requests.post] / [requests.get]: the request goes out, then either a
    response comes back or the call raises. *)
Definition send (r : request) : M response :=
  fun w tr =>
    match http w (sent tr) r with
    | Resp resp => ((tr ++ [ESend r])%list, Ret resp)
    | NoResp => ((tr ++ [ESend r])%list, Raise RequestException)
    end.

(** [open(TEST_FILE, 'rb')] followed by [f.read()]. *)
Definition read_test_file : M (list byte) :=
  fun w tr =>
    match test_file w with
    | Some c => (tr, Ret c)
    | None => (tr, Raise OSError)
    end.

(** [response.json()] *)
Definition response_json (r : response) : M json :=
  match json_body r with
  | Some v => ret v
  | None => raise JSONDecodeError
  end.

(** Exit status of the process. *)
Definition exit_code {A} (o : outcome A) : Z :=
  match o with
  | Ret _ => 0
  | Exit c => c
  | Raise _ => 1
  end.

(** ** [bytes.hex()] *)

Definition hex_digit (n : N) : ascii :=
  match String.get (N.to_nat n) "0123456789abcdef" with
  | Some c => c
  | None => "0"%char
  end.

Definition hex_byte (b : byte) : string :=
  let n := Byte.to_N b in
  String (hex_digit (N.div n 16)) (String (hex_digit (N.modulo n 16)) "").

Fixpoint hex (bs : list byte) : string :=
  match bs with
  | [] => ""
  | b :: rest => hex_byte b ++ hex rest
  end.

(** ** Configuration *)

Definition SUPABASE_URL : string := "https://xczippkxxdqlvaacjexj.supabase.co".
Definition PROCESSOR_ID : string := "9024a072-211d-40fc-a64f-b9d7a7f31a72".
Definition ORGANIZATION_ID : string := "b822d5c9-706a-4e37-9d7a-c0b0417efe56".

(** Line 33: the storage path, from the bytes [os.urandom(4)] returned. *)
Definition storage_path (rnd : list byte) : string :=
  ORGANIZATION_ID ++ "/test-contract-" ++ hex rnd ++ ".txt".

(** ** Python operations on values of unknown shape *)

(** [v[k]] for a string key [k]. *)
Definition subscript_key (v : json) (k : string) : M json :=
  match v with
  | JDict kv =>
      match dict_lookup k kv with
      | Some x => ret x
      | None => raise KeyError
      end
  | _ => raise TypeError
  end.

(** [v[0]].  A dict coming from JSON has string keys only, so [0] is never
    one of them; the first character of a string is again a string. *)
Definition subscript_0 (v : json) : M json :=
  match v with
  | JList [] => raise IndexError
  | JList (x :: _) => ret x
  | JStr EmptyString => raise IndexError
  | JStr (String c _) => ret (JStr (String c ""))
  | JDict _ => raise KeyError
  | _ => raise TypeError
  end.

(** [v.get(k, default)]: only a dict has the method. *)
Definition method_get (v : json) (k : string) (default : json) : M json :=
  match v with
  | JDict kv =>
      match dict_lookup k kv with
      | Some x => ret x
      | None => ret default
      end
  | _ => raise AttributeError
  end.

(** [code not in [200, 201]] *)
Definition not_in_200_201 (code : Z) : bool :=
  negb ((code =? 200) || (code =? 201)).

Definition nl : string := String (ascii_of_nat 10) "".

(** ** The four requests *)

(** Lines 38-44. *)
Definition upload_request (key path : string) (file_content : list byte) : request :=
  {| method := POST;
     url := [Lit (SUPABASE_URL ++ "/storage/v1/object/documents/" ++ path)];
     headers := [("Authorization", "Bearer " ++ key);
                 ("Content-Type", "text/plain")];
     body := Data file_content;
     timeout := None |}.

(** Lines 56-62. *)
Definition doc_data (path : string) (file_content : list byte) : json :=
  JDict [("name", JStr "test-contract.txt");
         ("size_bytes", JInt (Z.of_nat (List.length file_content)));
         ("mime_type", JStr "text/plain");
         ("storage_path", JStr path);
         ("organization_id", JStr ORGANIZATION_ID)].

(** Lines 64-74. *)
Definition insert_request (key path : string) (file_content : list byte) : request :=
  {| method := POST;
     url := [Lit (SUPABASE_URL ++ "/rest/v1/documents")];
     headers := [("apikey", key);
                 ("Authorization", "Bearer " ++ key);
                 ("Content-Type", "application/json")];
     body := Json (doc_data path file_content);
     timeout := None |}.

(** Lines 99-102. *)
Definition run_payload (document_id : json) : json :=
  JDict [("processor_id", JStr PROCESSOR_ID); ("document_id", document_id)].

(** Lines 94-111. *)
Definition invoke_request (key : string) (document_id : json) : request :=
  {| method := POST;
     url := [Lit (SUPABASE_URL ++ "/functions/v1/execute-processor-run")];
     headers := [("Authorization", "Bearer " ++ key);
                 ("Content-Type", "application/json")];
     body := Json (run_payload document_id);
     timeout := Some 30 |}.

(** Lines 131-139. *)
Definition status_request (key : string) (run_id : json) : request :=
  {| method := GET;
     url := [Lit (SUPABASE_URL ++ "/rest/v1/runs?id=eq."); Fmt run_id;
             Lit "&select=*"];
     headers := [("apikey", key); ("Authorization", "Bearer " ++ key)];
     body := NoBody;
     timeout := None |}.

(** ** The script *)

(** Lines 28-88.  [key] is the module-level SUPABASE_SERVICE_ROLE_KEY. *)
Definition upload_document (key : string) : M json :=
  print [Lit (nl ++ "=== Step 1: Uploading document to Supabase Storage ===")] ;;
  rnd <- ask urandom4 ;;
  let path := storage_path rnd in
  file_content <- read_test_file ;;
  response <- send (upload_request key path file_content) ;;
  if not_in_200_201 (status_code response) then
    print [Lit "ERROR: Failed to upload to storage: ";
           Fmt (JInt (status_code response))] ;;
    print [Lit (text response)] ;;
    ret JNone
  else
    print [Lit ("✓ Uploaded to storage: " ++ path)] ;;
    print [Lit (nl ++ "=== Step 2: Creating document record in database ===")] ;;
    response <- send (insert_request key path file_content) ;;
    if not_in_200_201 (status_code response) then
      print [Lit "ERROR: Failed to create document record: ";
             Fmt (JInt (status_code response))] ;;
      print [Lit (text response)] ;;
      ret JNone
    else
      document <- response_json response ;;
      document <- match document with
                  | JList _ => subscript_0 document
                  | _ => ret document
                  end ;;
      document_id <- subscript_key document "id" ;;
      print [Lit "✓ Created document record: "; Fmt document_id] ;;
      ret document_id.

(** Lines 90-125. *)
Definition execute_processor_run (key : string) (document_id : json) : M json :=
  print [Lit (nl ++ "=== Step 3: Executing processor run ===")] ;;
  print [Lit "Calling Edge Function with payload: ";
         Dumps (run_payload document_id) 2] ;;
  response <- send (invoke_request key document_id) ;;
  print [Lit (nl ++ "Response Status: "); Fmt (JInt (status_code response))] ;;
  print [Lit ("Response Body: " ++ text response)] ;;
  if status_code response =? 202 then
    result <- response_json response ;;
    run_id <- method_get result "run_id" JNone ;;
    print [Lit (nl ++ "✓ Run initiated successfully!")] ;;
    print [Lit "✓ Run ID: "; Fmt run_id] ;;
    print [Lit ("✓ Monitor at: " ++ SUPABASE_URL
                ++ "/project/xczippkxxdqlvaacjexj/editor?table=runs")] ;;
    ret run_id
  else
    print [Lit (nl ++ "✗ Run failed with status ");
           Fmt (JInt (status_code response))] ;;
    ret JNone.

(** Lines 127-153. *)
Definition check_run_status (key : string) (run_id : json) : M json :=
  print [Lit (nl ++ "=== Step 4: Checking run status ===")] ;;
  response <- send (status_request key run_id) ;;
  if status_code response =? 200 then
    runs <- response_json response ;;
    if truthy runs then
      run <- subscript_0 runs ;;
      v <- subscript_key run "status" ;;
      print [Lit "Status: "; Fmt v] ;;
      v <- subscript_key run "total_operations" ;;
      print [Lit "Total Operations: "; Fmt v] ;;
      v <- subscript_key run "completed_operations" ;;
      print [Lit "Completed: "; Fmt v] ;;
      v <- subscript_key run "failed_operations" ;;
      print [Lit "Failed: "; Fmt v] ;;
      v <- subscript_key run "started_at" ;;
      print [Lit "Started: "; Fmt v] ;;
      v <- method_get run "completed_at" (JStr "N/A") ;;
      print [Lit "Completed: "; Fmt v] ;;
      ret run
    else ret JNone
  else ret JNone.

(** Lines 155-180. *)
Definition main (key : string) : M unit :=
  print [Lit "=== ValidAI Processor Run Test ==="] ;;
  print [Lit ("Processor: " ++ PROCESSOR_ID)] ;;
  print [Lit ("Organization: " ++ ORGANIZATION_ID)] ;;
  document_id <- upload_document key ;;
  if negb (truthy document_id) then exit 1 else
  run_id <- execute_processor_run key document_id ;;
  if negb (truthy run_id) then exit 1 else
  sleep 2 ;;
  check_run_status key run_id ;;
  print [Lit (nl ++ "=== Test Complete ===")] ;;
  print [Lit "Run ID: "; Fmt run_id] ;;
  print [Lit "Document ID: "; Fmt document_id] ;;
  print [Lit (nl ++ "Monitor progress:")] ;;
  print [Lit ("  Runs: " ++ SUPABASE_URL
              ++ "/project/xczippkxxdqlvaacjexj/editor?table=runs")] ;;
  print [Lit ("  Operation Results: " ++ SUPABASE_URL
              ++ "/project/xczippkxxdqlvaacjexj/editor?table=operation_results")].

(** Lines 12-21, then [main].  The two keys are read once; a key that is
    unset or empty stops the script. *)
Definition script : M unit :=
  anon_key <- ask env_anon ;;
  if negb (env_truthy anon_key) then
    print [Lit "ERROR: NEXT_PUBLIC_SUPABASE_PUBLISHABLE_OR_ANON_KEY not found in environment"] ;;
    exit 1
  else
  service_key <- ask env_service ;;
  match service_key with
  | Some key =>
      if negb (env_truthy service_key) then
        print [Lit "ERROR: SUPABASE_SERVICE_ROLE_KEY not found in environment"] ;;
        exit 1
      else main key
  | None =>
      print [Lit "ERROR: SUPABASE_SERVICE_ROLE_KEY not found in environment"] ;;
      exit 1
  end.

(** One run of the script in the world [w]. *)
Definition run_script (w : world) : trace * outcome unit := script w [].

(** ** Reading hexadecimal back (used to show that [hex] loses nothing) *)

Definition digit_value (c : ascii) : option N :=
  (fix find (n : nat) (digits : string) : option N :=
     match digits with
     | EmptyString => None
     | String d rest =>
         if Ascii.eqb c d then Some (N.of_nat n) else find (S n) rest
     end) O "0123456789abcdef".

Definition unhex_byte (s : string) : option byte :=
  match s with
  | String h (String l EmptyString) =>
      match digit_value h, digit_value l with
      | Some x, Some y => Byte.of_N (16 * x + y)
      | _, _ => None
      end
  | _ => None
  end.

(** ** Vocabulary for statements about a run *)

(** The storage path of the run, and the requests of steps 1 and 2. *)
Definition path_of (w : world) : string := storage_path (urandom4 w).

Definition req1 (w : world) (key : string) (c : list byte) : request :=
  upload_request key (path_of w) c.

Definition req2 (w : world) (key : string) (c : list byte) : request :=
  insert_request key (path_of w) c.

(** What the remote side answers to each of the four calls, given what was
    sent before it. *)
Definition reply1 (w : world) (key : string) (c : list byte) : reply :=
  http w [] (req1 w key c).

Definition reply2 (w : world) (key : string) (c : list byte) : reply :=
  http w [req1 w key c] (req2 w key c).

Definition reply3 (w : world) (key : string) (c : list byte) (id : json) : reply :=
  http w [req1 w key c; req2 w key c] (invoke_request key id).

Definition reply4 (w : world) (key : string) (c : list byte) (id rid : json) : reply :=
  http w [req1 w key c; req2 w key c; invoke_request key id]
       (status_request key rid).

(** Both variables are set, to [a] and [key], and the test file reads as [c]. *)
Definition configured (w : world) (a key : string) (c : list byte) : Prop :=
  env_anon w = Some a /\ env_service w = Some key /\ test_file w = Some c.

Definition is_200_201 (r : response) : Prop :=
  status_code r = 200 \/ status_code r = 201.

(** Step 1 is answered with 200 or 201. *)
Definition upload_ok (w : world) (key : string) (c : list byte) : Prop :=
  exists r, reply1 w key c = Resp r /\ is_200_201 r.

(** The record the insert response carries: the JSON object itself, or the
    first element of a JSON list. *)
Definition carries (body : json) (kv : list (string * json)) : Prop :=
  body = JDict kv \/ exists rest, body = JList (JDict kv :: rest).

(** Step 2 is answered with 200 or 201 and a record whose 'id' is [id]. *)
Definition insert_ok (w : world) (key : string) (c : list byte) (id : json) : Prop :=
  exists r body kv,
    reply2 w key c = Resp r /\ is_200_201 r /\
    json_body r = Some body /\ carries body kv /\
    dict_lookup "id" kv = Some id.

(** Step 3 is answered with 202 and an object whose 'run_id' is [rid]. *)
Definition invoke_ok (w : world) (key : string) (c : list byte) (id rid : json) : Prop :=
  exists r kv,
    reply3 w key c id = Resp r /\ status_code r = 202 /\
    json_body r = Some (JDict kv) /\ dict_lookup "run_id" kv = Some rid.

(** Step 4 is answered with 200 and the row list [rows]. *)
Definition status_ok (w : world) (key : string) (c : list byte) (id rid : json)
    (rows : list json) : Prop :=
  exists r, reply4 w key c id rid = Resp r /\ status_code r = 200 /\
            json_body r = Some (JList rows).

(** The value [result.get('run_id')] evaluates to. *)
Definition got_run_id (kv : list (string * json)) : json :=
  match dict_lookup "run_id" kv with
  | Some v => v
  | None => JNone
  end.

(** A row of the runs table from which step 4 can print its five
    mandatory fields. *)
Definition has_key (k : string) (kv : list (string * json)) : bool :=
  match dict_lookup k kv with
  | Some _ => true
  | None => false
  end.

Definition complete_row (row : json) : bool :=
  match row with
  | JDict kv =>
      forallb (fun k => has_key k kv)
        ["status"; "total_operations"; "completed_operations";
         "failed_operations"; "started_at"]
  | _ => false
  end.

Definition field (k : string) (default : json) (row : json) : json :=
  match row with
  | JDict kv =>
      match dict_lookup k kv with
      | Some v => v
      | None => default
      end
  | _ => default
  end.

(** The lines a run prints, in the order of the script. *)
Definition banner : trace :=
  [EPrint [Lit "=== ValidAI Processor Run Test ==="];
   EPrint [Lit ("Processor: " ++ PROCESSOR_ID)];
   EPrint [Lit ("Organization: " ++ ORGANIZATION_ID)]].

Definition upto_upload (w : world) (key : string) (c : list byte) : trace :=
  (banner ++
   [EPrint [Lit (nl ++ "=== Step 1: Uploading document to Supabase Storage ===")];
    ESend (req1 w key c)])%list.

Definition upto_insert (w : world) (key : string) (c : list byte) : trace :=
  (upto_upload w key c ++
   [EPrint [Lit ("✓ Uploaded to storage: " ++ path_of w)];
    EPrint [Lit (nl ++ "=== Step 2: Creating document record in database ===")];
    ESend (req2 w key c)])%list.

Definition upto_invoke (w : world) (key : string) (c : list byte) (id : json) : trace :=
  (upto_insert w key c ++
   [EPrint [Lit "✓ Created document record: "; Fmt id];
    EPrint [Lit (nl ++ "=== Step 3: Executing processor run ===")];
    EPrint [Lit "Calling Edge Function with payload: "; Dumps (run_payload id) 2];
    ESend (invoke_request key id)])%list.

Definition response_lines (r : response) : trace :=
  [EPrint [Lit (nl ++ "Response Status: "); Fmt (JInt (status_code r))];
   EPrint [Lit ("Response Body: " ++ text r)]].

Definition accepted_lines (rid : json) : trace :=
  [EPrint [Lit (nl ++ "✓ Run initiated successfully!")];
   EPrint [Lit "✓ Run ID: "; Fmt rid];
   EPrint [Lit ("✓ Monitor at: " ++ SUPABASE_URL
                ++ "/project/xczippkxxdqlvaacjexj/editor?table=runs")]].

Definition upto_status (w : world) (key : string) (c : list byte) (id rid : json)
    (r3 : response) : trace :=
  (upto_invoke w key c id ++ response_lines r3 ++ accepted_lines rid ++
   [ESleep 2;
    EPrint [Lit (nl ++ "=== Step 4: Checking run status ===")];
    ESend (status_request key rid)])%list.

Definition status_lines (row : json) : trace :=
  [EPrint [Lit "Status: "; Fmt (field "status" JNone row)];
   EPrint [Lit "Total Operations: "; Fmt (field "total_operations" JNone row)];
   EPrint [Lit "Completed: "; Fmt (field "completed_operations" JNone row)];
   EPrint [Lit "Failed: "; Fmt (field "failed_operations" JNone row)];
   EPrint [Lit "Started: "; Fmt (field "started_at" JNone row)];
   EPrint [Lit "Completed: "; Fmt (field "completed_at" (JStr "N/A") row)]].

Definition closing_lines (id rid : json) : trace :=
  [EPrint [Lit (nl ++ "=== Test Complete ===")];
   EPrint [Lit "Run ID: "; Fmt rid];
   EPrint [Lit "Document ID: "; Fmt id];
   EPrint [Lit (nl ++ "Monitor progress:")];
   EPrint [Lit ("  Runs: " ++ SUPABASE_URL
                ++ "/project/xczippkxxdqlvaacjexj/editor?table=runs")];
   EPrint [Lit ("  Operation Results: " ++ SUPABASE_URL
                ++ "/project/xczippkxxdqlvaacjexj/editor?table=operation_results")]].

(** A computation that only ever adds events to the trace it is given. *)
Definition grows {A} (m : M A) : Prop :=
  forall w tr, exists ext, fst (m w tr) = (tr ++ ext)%list.

(** The same surroundings with another value of the anonymous key. *)
Definition with_anon (w : world) (k : string) : world :=
  {| env_anon := Some k;
     env_service := env_service w;
     test_file := test_file w;
     urandom4 := urandom4 w;
     http := http w |}.

(** A computation that does not look at the anonymous key. *)
Definition ignores_anon {A} (m : M A) : Prop :=
  forall w k tr, m (with_anon w k) tr = m w tr.

(** The headers of a request that carry a credential. *)
Definition auth_headers (r : request) : list (string * string) :=
  filter (fun h => String.eqb (fst h) "Authorization" || String.eqb (fst h) "apikey")
         (headers r).

(** ** Concrete surroundings

    A remote side that answers the first, second, third and every later
    call with [r1], [r2], [r3] and [r4]. *)
Definition answers (r1 r2 r3 r4 : reply) : list request -> request -> reply :=
  fun history _ =>
    match history with
    | [] => r1
    | [_] => r2
    | [_; _] => r3
    | _ => r4
    end.

Definition sample_file : list byte := [x68; x69].
Definition sample_draw : list byte := [xde; xad; xbe; xef].
Definition doc_1 : json := JStr "doc-1".
Definition run_1 : json := JStr "run-1".

Definition stored : response := mkResponse 201 "stored" None.
Definition inserted : response :=
  mkResponse 201 "inserted" (Some (JDict [("id", doc_1)])).
Definition queued : response :=
  mkResponse 202 "queued" (Some (JDict [("run_id", run_1)])).
Definition completed_row : json :=
  JDict [("status", JStr "completed"); ("total_operations", JInt 3);
         ("completed_operations", JInt 3); ("failed_operations", JInt 0);
         ("started_at", JStr "t0")].
Definition one_row : response :=
  mkResponse 200 "rows" (Some (JList [completed_row])).

Definition refused : response := mkResponse 500 "refused" None.
Definition empty_list : response := mkResponse 201 "empty" (Some (JList [])).
Definition no_id : response :=
  mkResponse 201 "inserted" (Some (JDict [("name", JStr "test-contract.txt")])).
Definition no_run_id : response := mkResponse 202 "queued" (Some (JDict [])).
Definition incomplete_row : response :=
  mkResponse 200 "rows" (Some (JList [JDict [("state", JStr "queued")]])).

Definition world_of (anon service : option string) (r1 r2 r3 r4 : response) : world :=
  {| env_anon := anon;
     env_service := service;
     test_file := Some sample_file;
     urandom4 := sample_draw;
     http := answers (Resp r1) (Resp r2) (Resp r3) (Resp r4) |}.

Definition world_end_to_end : world :=
  world_of (Some "anon") (Some "service") stored inserted queued one_row.
Definition world_without_anon : world :=
  world_of None (Some "service") stored inserted queued one_row.
Definition world_upload_refused : world :=
  world_of (Some "anon") (Some "service") refused inserted queued one_row.
Definition world_insert_refused : world :=
  world_of (Some "anon") (Some "service") stored refused queued one_row.
Definition world_insert_empty_list : world :=
  world_of (Some "anon") (Some "service") stored empty_list queued one_row.
Definition world_insert_without_id : world :=
  world_of (Some "anon") (Some "service") stored no_id queued one_row.
Definition world_invoke_refused : world :=
  world_of (Some "anon") (Some "service") stored inserted refused one_row.
Definition world_invoke_without_run_id : world :=
  world_of (Some "anon") (Some "service") stored inserted no_run_id one_row.
Definition world_status_refused : world :=
  world_of (Some "anon") (Some "service") stored inserted queued refused.
Definition world_incomplete_row : world :=
  world_of (Some "anon") (Some "service") stored inserted queued incomplete_row.

Definition null_id : response :=
  mkResponse 201 "inserted" (Some (JDict [("id", JNone)])).
Definition null_run_id : response :=
  mkResponse 202 "queued" (Some (JDict [("run_id", JNone)])).

Definition world_empty_anon : world :=
  world_of (Some "") (Some "service") stored inserted queued one_row.
Definition world_null_id : world :=
  world_of (Some "anon") (Some "service") stored null_id queued one_row.
Definition world_null_run_id : world :=
  world_of (Some "anon") (Some "service") stored inserted null_run_id one_row.
Definition world_empty_service : world :=
  world_of (Some "anon") (Some "") stored inserted queued one_row.

(** ** Vocabulary for the further properties *)

(** The numbers of seconds a run has slept, in order. *)
Fixpoint sleeps (tr : trace) : list Z :=
  match tr with
  | [] => []
  | ESleep secs :: rest => secs :: sleeps rest
  | _ :: rest => sleeps rest
  end.

Definition is_dict (v : json) : bool :=
  match v with
  | JDict _ => true
  | _ => false
  end.

(** The record lines 82-83 hand to the subscript of line 85: the first
    element of a list, the body itself otherwise; nothing for an empty
    list. *)
Definition unwrapped (body : json) : option json :=
  match body with
  | JList [] => None
  | JList (x :: _) => Some x
  | _ => Some body
  end.

(** The stages of a run, each with what the earlier ones need: both keys
    non-empty, the file readable and the upload answered 200/201; then the
    insert answered with a truthy 'id'; then the function call answered 202
    with a truthy 'run_id'. *)
Definition uploaded (w : world) (a key : string) (c : list byte) : Prop :=
  configured w a key c /\ a <> "" /\ key <> "" /\ upload_ok w key c.

Definition document_created (w : world) (a key : string) (c : list byte)
    (id : json) : Prop :=
  uploaded w a key c /\ insert_ok w key c id /\ truthy id = true.

Definition run_accepted (w : world) (a key : string) (c : list byte)
    (id rid : json) : Prop :=
  document_created w a key c id /\ invoke_ok w key c id rid
  /\ truthy rid = true.

(** What lines 175-180 make of the result of [check_run_status]: its value
    is dropped and the closing lines follow; an exception passes through. *)
Definition finish (id rid : json) (p : trace * outcome json)
    : trace * outcome unit :=
  match p with
  | (tr, Ret _) => ((tr ++ closing_lines id rid)%list, Ret tt)
  | (tr, Exit code) => (tr, Exit code)
  | (tr, Raise e) => (tr, Raise e)
  end.

Definition step1_line : event :=
  EPrint [Lit (nl ++ "=== Step 1: Uploading document to Supabase Storage ===")].

Definition step2_lines (w : world) : trace :=
  [EPrint [Lit ("✓ Uploaded to storage: " ++ path_of w)];
   EPrint [Lit (nl ++ "=== Step 2: Creating document record in database ===")]].

Definition step3_lines (id : json) : trace :=
  [EPrint [Lit (nl ++ "=== Step 3: Executing processor run ===")];
   EPrint [Lit "Calling Edge Function with payload: ";
           Dumps (run_payload id) 2]].

Definition step4_line : event :=
  EPrint [Lit (nl ++ "=== Step 4: Checking run status ===")].

(** More concrete surroundings: calls without a response, an unreadable
    file, and bodies the script cannot use. *)
Definition world_replying (file : option (list byte)) (r1 r2 r3 r4 : reply)
    : world :=
  {| env_anon := Some "anon";
     env_service := Some "service";
     test_file := file;
     urandom4 := sample_draw;
     http := answers r1 r2 r3 r4 |}.

Definition not_json_201 : response := mkResponse 201 "<html>" None.
Definition not_json_202 : response := mkResponse 202 "<html>" None.
Definition not_json_200 : response := mkResponse 200 "<html>" None.
Definition text_201 : response := mkResponse 201 "ok" (Some (JStr "ok")).
Definition list_202 : response := mkResponse 202 "list" (Some (JList [run_1])).
Definition no_rows : response := mkResponse 200 "none" (Some (JList [])).
Definition text_row : response :=
  mkResponse 200 "rows" (Some (JList [JStr "completed"])).
Definition object_200 : response :=
  mkResponse 200 "denied" (Some (JDict [("message", JStr "denied")])).

Definition world_unreadable_file : world :=
  world_replying None (Resp stored) (Resp inserted) (Resp queued) (Resp one_row).
Definition world_upload_silent : world :=
  world_replying (Some sample_file) NoResp (Resp inserted) (Resp queued)
    (Resp one_row).
Definition world_invoke_silent : world :=
  world_replying (Some sample_file) (Resp stored) (Resp inserted) NoResp
    (Resp one_row).
Definition world_insert_not_json : world :=
  world_of (Some "anon") (Some "service") stored not_json_201 queued one_row.
Definition world_insert_text : world :=
  world_of (Some "anon") (Some "service") stored text_201 queued one_row.
Definition world_invoke_not_json : world :=
  world_of (Some "anon") (Some "service") stored inserted not_json_202 one_row.
Definition world_invoke_list : world :=
  world_of (Some "anon") (Some "service") stored inserted list_202 one_row.
Definition world_no_rows : world :=
  world_of (Some "anon") (Some "service") stored inserted queued no_rows.
Definition world_status_not_json : world :=
  world_of (Some "anon") (Some "service") stored inserted queued not_json_200.
Definition world_text_row : world :=
  world_of (Some "anon") (Some "service") stored inserted queued text_row.
Definition world_status_object : world :=
  world_of (Some "anon") (Some "service") stored inserted queued object_200.

(** * Proofs *)

(** ** Small facts *)

Lemma env_truthy_some (s : string) : s <> "" -> env_truthy (Some s) = true.
Proof.
  intros Hs. unfold env_truthy.
  destruct (String.eqb_spec s ""); [contradiction | reflexivity].
Qed.

Lemma not_in_200_201_false (r : response) :
  is_200_201 r -> not_in_200_201 (status_code r) = false.
Proof.
  unfold is_200_201, not_in_200_201. intros [-> | ->]; reflexivity.
Qed.

Lemma not_in_200_201_true (code : Z) :
  code <> 200 -> code <> 201 -> not_in_200_201 code = true.
Proof.
  intros H0 H1. unfold not_in_200_201.
  destruct (Z.eqb_spec code 200); [contradiction|].
  destruct (Z.eqb_spec code 201); [contradiction|]. reflexivity.
Qed.

Lemma eqb_202_false (code : Z) : code <> 202 -> (code =? 202) = false.
Proof. intros H. now apply Z.eqb_neq. Qed.

Lemma eqb_200_false (code : Z) : code <> 200 -> (code =? 200) = false.
Proof. intros H. now apply Z.eqb_neq. Qed.

(** ** Running the script along one path

    [run_py] unfolds the script and the monad, leaving the requests, the
    strings and the answers of the world folded; [answer H] uses what is
    known about the world at the point the run has reached. *)

Ltac run_py :=
  match goal with
  | |- ?lhs = ?rhs =>
      let lhs' :=
        eval cbv beta iota zeta delta
          [run_script script main upload_document execute_processor_run
           check_run_status bind ask print exit raise sleep ret send
           read_test_file response_json subscript_key subscript_0 method_get
           negb app sent fst snd] in lhs in
      change (lhs' = rhs)
  end.

(** The expression a stuck run is waiting for. *)
Ltac head_scrutinee t :=
  lazymatch t with
  | match ?x with _ => _ end => head_scrutinee x
  | _ => t
  end.

(** Every equation in the context is an answer of the world (or a test the
    script makes) at some point of the run; use each when the run waits
    for it. *)
Ltac go :=
  run_py;
  repeat (lazymatch goal with
          | |- ?lhs = _ =>
              let y := head_scrutinee lhs in
              match goal with
              | H : ?l = _ |- _ =>
                  lazymatch y with context [l] => rewrite H end
              end
          end; run_py).

Ltac open_world :=
  repeat match goal with
         | H : configured _ _ _ _ |- _ => destruct H as (? & ? & ?)
         | H : upload_ok _ _ _ |- _ =>
             let r := fresh "r1" in
             let E := fresh "E1" in
             let S := fresh "S1" in
             destruct H as (r & E & S);
             apply not_in_200_201_false in S
         | H : insert_ok _ _ _ _ |- _ =>
             let r := fresh "r2" in
             let S := fresh "S2" in
             destruct H as (r & ? & ? & ? & S & ? & ? & ?);
             apply not_in_200_201_false in S
         | H : invoke_ok _ _ _ _ _ |- _ =>
             let r := fresh "r3" in
             destruct H as (r & ? & ? & ? & ? & ?)
         | H : status_ok _ _ _ _ _ _ |- _ =>
             let r := fresh "r4" in
             destruct H as (r & ? & ? & ?)
         | H : carries _ _ |- _ => destruct H as [-> | [? ->]]
         | H : is_200_201 _ |- _ => apply not_in_200_201_false in H
         | H : ?s <> EmptyString |- _ => apply env_truthy_some in H
         | H : _ <> 202 |- _ => apply eqb_202_false in H
         | H : _ <> 200, H' : _ <> 201 |- _ =>
             pose proof (not_in_200_201_true _ H H'); clear H H'
         | H : _ <> 200 |- _ => apply eqb_200_false in H
         | H : status_code _ = _ |- _ => apply Z.eqb_eq in H
         end;
  unfold reply1, reply2, reply3, reply4, req1, req2, path_of in *.

Lemma run_no_anon w :
  env_truthy (env_anon w) = false ->
  run_script w =
    ([EPrint [Lit "ERROR: NEXT_PUBLIC_SUPABASE_PUBLISHABLE_OR_ANON_KEY not found in environment"]],
     Exit 1).
Proof. intros H. go. reflexivity. Qed.

Lemma run_no_service w :
  env_truthy (env_anon w) = true ->
  env_truthy (env_service w) = false ->
  run_script w =
    ([EPrint [Lit "ERROR: SUPABASE_SERVICE_ROLE_KEY not found in environment"]],
     Exit 1).
Proof.
  intros Ha Hs. destruct (env_service w) as [k|] eqn:E; go; reflexivity.
Qed.

Lemma run_upload_rejected w a key c r :
  configured w a key c -> a <> "" -> key <> "" ->
  reply1 w key c = Resp r ->
  status_code r <> 200 -> status_code r <> 201 ->
  run_script w =
    ((upto_upload w key c ++
      [EPrint [Lit "ERROR: Failed to upload to storage: ";
               Fmt (JInt (status_code r))];
       EPrint [Lit (text r)]])%list,
     Exit 1).
Proof. intros. open_world. go. reflexivity. Qed.

Lemma run_insert_rejected w a key c r :
  configured w a key c -> a <> "" -> key <> "" ->
  upload_ok w key c ->
  reply2 w key c = Resp r ->
  status_code r <> 200 -> status_code r <> 201 ->
  run_script w =
    ((upto_insert w key c ++
      [EPrint [Lit "ERROR: Failed to create document record: ";
               Fmt (JInt (status_code r))];
       EPrint [Lit (text r)]])%list,
     Exit 1).
Proof. intros. open_world. go. reflexivity. Qed.

Lemma run_insert_empty_list w a key c r :
  configured w a key c -> a <> "" -> key <> "" ->
  upload_ok w key c ->
  reply2 w key c = Resp r -> is_200_201 r ->
  json_body r = Some (JList []) ->
  run_script w = (upto_insert w key c, Raise IndexError).
Proof. intros. open_world. go. reflexivity. Qed.

Lemma run_id_absent w a key c r body kv :
  configured w a key c -> a <> "" -> key <> "" ->
  upload_ok w key c ->
  reply2 w key c = Resp r -> is_200_201 r ->
  json_body r = Some body -> carries body kv ->
  dict_lookup "id" kv = None ->
  run_script w = (upto_insert w key c, Raise KeyError).
Proof. intros. open_world; go; reflexivity. Qed.

Lemma run_id_falsy w a key c id :
  configured w a key c -> a <> "" -> key <> "" ->
  upload_ok w key c -> insert_ok w key c id ->
  truthy id = false ->
  run_script w =
    ((upto_insert w key c ++ [EPrint [Lit "✓ Created document record: "; Fmt id]])%list,
     Exit 1).
Proof. intros. open_world; go; reflexivity. Qed.

Lemma run_invoke_rejected w a key c id r :
  configured w a key c -> a <> "" -> key <> "" ->
  upload_ok w key c -> insert_ok w key c id -> truthy id = true ->
  reply3 w key c id = Resp r ->
  status_code r <> 202 ->
  run_script w =
    ((upto_invoke w key c id ++ response_lines r ++
      [EPrint [Lit (nl ++ "✗ Run failed with status ");
               Fmt (JInt (status_code r))]])%list,
     Exit 1).
Proof. intros. open_world; go; reflexivity. Qed.

Lemma run_invoke_accepted_falsy w a key c id r kv :
  configured w a key c -> a <> "" -> key <> "" ->
  upload_ok w key c -> insert_ok w key c id -> truthy id = true ->
  reply3 w key c id = Resp r ->
  status_code r = 202 -> json_body r = Some (JDict kv) ->
  truthy (got_run_id kv) = false ->
  run_script w =
    ((upto_invoke w key c id ++ response_lines r
      ++ accepted_lines (got_run_id kv))%list,
     Exit 1).
Proof.
  intros. unfold got_run_id in *.
  destruct (dict_lookup "run_id" kv) eqn:E; open_world; go; reflexivity.
Qed.

Lemma run_status_not_200 w a key c id rid r3 kv r :
  configured w a key c -> a <> "" -> key <> "" ->
  upload_ok w key c -> insert_ok w key c id -> truthy id = true ->
  reply3 w key c id = Resp r3 -> status_code r3 = 202 ->
  json_body r3 = Some (JDict kv) -> dict_lookup "run_id" kv = Some rid ->
  truthy rid = true ->
  reply4 w key c id rid = Resp r ->
  status_code r <> 200 ->
  run_script w =
    ((upto_status w key c id rid r3 ++ closing_lines id rid)%list, Ret tt).
Proof. intros. open_world; go; reflexivity. Qed.

Lemma run_complete w a key c id rid r3 kv r row rows :
  configured w a key c -> a <> "" -> key <> "" ->
  upload_ok w key c -> insert_ok w key c id -> truthy id = true ->
  reply3 w key c id = Resp r3 -> status_code r3 = 202 ->
  json_body r3 = Some (JDict kv) -> dict_lookup "run_id" kv = Some rid ->
  truthy rid = true ->
  reply4 w key c id rid = Resp r -> status_code r = 200 ->
  json_body r = Some (JList (row :: rows)) ->
  complete_row row = true ->
  run_script w =
    ((upto_status w key c id rid r3 ++ status_lines row
      ++ closing_lines id rid)%list, Ret tt).
Proof.
  intros Hcfg Ha Hk Hup Hin Hid H3 S3 J3 L3 Hrid H4 S4 J4 Hrow.
  destruct row as [| | | | | |fields]; try discriminate Hrow.
  unfold complete_row, has_key in Hrow. cbn [forallb] in Hrow.
  destruct (dict_lookup "status" fields) eqn:F1; [|discriminate].
  destruct (dict_lookup "total_operations" fields) eqn:F2; [|discriminate].
  destruct (dict_lookup "completed_operations" fields) eqn:F3; [|discriminate].
  destruct (dict_lookup "failed_operations" fields) eqn:F4; [|discriminate].
  destruct (dict_lookup "started_at" fields) eqn:F5; [|discriminate].
  clear Hrow. unfold status_lines, field. rewrite F1, F2, F3, F4, F5.
  destruct (dict_lookup "completed_at" fields) eqn:F6;
    open_world; go; reflexivity.
Qed.

(** A row that lacks one of the five fields stops the run with a KeyError
    after the fields before it have been printed. *)
Lemma run_row_without_status w a key c id rid r3 kv r rows fields :
  configured w a key c -> a <> "" -> key <> "" ->
  upload_ok w key c -> insert_ok w key c id -> truthy id = true ->
  reply3 w key c id = Resp r3 -> status_code r3 = 202 ->
  json_body r3 = Some (JDict kv) -> dict_lookup "run_id" kv = Some rid ->
  truthy rid = true ->
  reply4 w key c id rid = Resp r -> status_code r = 200 ->
  json_body r = Some (JList (JDict fields :: rows)) ->
  dict_lookup "status" fields = None ->
  run_script w = (upto_status w key c id rid r3, Raise KeyError).
Proof. intros. open_world; go; reflexivity. Qed.

(** ** [hex] and the storage path *)

Example hex_sample_draw : hex sample_draw = "deadbeef".
Proof. reflexivity. Qed.

Example storage_path_sample_draw :
  storage_path sample_draw =
    "b822d5c9-706a-4e37-9d7a-c0b0417efe56/test-contract-deadbeef.txt".
Proof. reflexivity. Qed.

Lemma unhex_hex_byte (b : byte) : unhex_byte (hex_byte b) = Some b.
Proof. destruct b; reflexivity. Qed.

Lemma hex_byte_inj (a b : byte) : hex_byte a = hex_byte b -> a = b.
Proof.
  intros H. apply (f_equal unhex_byte) in H.
  rewrite !unhex_hex_byte in H. now injection H.
Qed.

Lemma hex_cons (b : byte) (rest : list byte) :
  hex (b :: rest) =
    String (hex_digit (N.div (Byte.to_N b) 16))
      (String (hex_digit (N.modulo (Byte.to_N b) 16)) (hex rest)).
Proof. reflexivity. Qed.

Lemma hex_digit_not_dot (b : byte) :
  hex_digit (N.div (Byte.to_N b) 16) <> "."%char.
Proof. destruct b; discriminate. Qed.

(** The suffix ".txt" cannot be mistaken for a hexadecimal digit, so the
    random part of the file name can be read back whatever its length. *)
Lemma hex_txt_inj (r1 : list byte) :
  forall r2, hex r1 ++ ".txt" = hex r2 ++ ".txt" -> r1 = r2.
Proof.
  induction r1 as [|a r1 IH]; intros [|b r2] H.
  - reflexivity.
  - rewrite hex_cons in H. cbn [hex append] in H.
    injection H as H _. symmetry in H. now apply hex_digit_not_dot in H.
  - rewrite hex_cons in H. cbn [hex append] in H.
    injection H as H _. now apply hex_digit_not_dot in H.
  - rewrite !hex_cons in H. cbn [append] in H.
    injection H as Hh Hl Hrest.
    f_equal.
    + apply hex_byte_inj. unfold hex_byte. cbv zeta. now rewrite Hh, Hl.
    + now apply IH.
Qed.

Lemma append_inj_l (p x y : string) : p ++ x = p ++ y -> x = y.
Proof.
  induction p as [|ch p IH]; cbn [append]; intros H.
  - exact H.
  - injection H as H. now apply IH.
Qed.

Lemma storage_path_inj (r1 r2 : list byte) :
  storage_path r1 = storage_path r2 -> r1 = r2.
Proof.
  unfold storage_path. intros H.
  apply append_inj_l in H. apply append_inj_l in H.
  now apply hex_txt_inj.
Qed.

(** ** Which requests a run sends

    Each of the three functions is followed along all of its paths; what
    matters here is only the list of requests it adds to the trace. *)

Lemma sent_app (t1 t2 : trace) : sent (t1 ++ t2)%list = (sent t1 ++ sent t2)%list.
Proof.
  induction t1 as [|[l|r|s] t1 IH]; cbn [sent app]; rewrite ?IH; reflexivity.
Qed.

Ltac unfold_py :=
  cbv beta iota zeta delta
    [main upload_document execute_processor_run
     check_run_status bind ask print exit raise sleep ret send
     read_test_file response_json subscript_key subscript_0 method_get
     negb].

Ltac waits_for t :=
  lazymatch t with
  | match ?x with _ => _ end => waits_for_or_self x
  | (match ?x with _ => _ end) _ => waits_for_or_self x
  | (match ?x with _ => _ end) _ _ => waits_for_or_self x
  end
with waits_for_or_self t :=
  lazymatch t with
  | match ?x with _ => _ end => waits_for_or_self x
  | (match ?x with _ => _ end) _ => waits_for_or_self x
  | (match ?x with _ => _ end) _ _ => waits_for_or_self x
  | _ => t
  end.

Ltac split_paths :=
  unfold_py;
  repeat lazymatch goal with
         | |- context [fst ?t] =>
             let y := waits_for t in
             destruct y eqn:?; unfold_py
         end.

Ltac tidy_sent :=
  cbn [fst snd]; rewrite ?sent_app; cbn [sent]; rewrite ?app_nil_r;
  rewrite <- ?app_assoc; cbn [app].

Lemma execute_processor_run_sends key id w tr :
  sent (fst (execute_processor_run key id w tr)) =
    (sent tr ++ [invoke_request key id])%list.
Proof.
  split_paths.
  all: tidy_sent; reflexivity.
Qed.

Lemma check_run_status_sends key rid w tr :
  sent (fst (check_run_status key rid w tr)) =
    (sent tr ++ [status_request key rid])%list.
Proof.
  split_paths.
  all: tidy_sent; reflexivity.
Qed.


Lemma upload_document_sends key w tr :
  exists c n,
    sent (fst (upload_document key w tr)) =
      (sent tr ++ firstn n [req1 w key c; req2 w key c])%list
    /\ (forall id, snd (upload_document key w tr) = Ret id ->
                   truthy id = true -> n = 2%nat).
Proof.
  split_paths.
  all: first
    [ eexists; exists 2%nat; split;
      [ tidy_sent; reflexivity
      | cbn [snd]; intros ? E T; reflexivity ]
    | eexists; exists 1%nat; split;
      [ tidy_sent; reflexivity
      | cbn [snd]; intros ? E T;
        first [discriminate E | injection E as <-; discriminate T] ]
    | exists nil, 0%nat; split;
      [ tidy_sent; reflexivity
      | cbn [snd]; intros ? E T;
        first [discriminate E | injection E as <-; discriminate T] ] ].
Qed.

Ltac unfold_main :=
  cbv beta iota zeta delta
    [main bind ask print exit raise sleep ret negb].

Ltac split_main :=
  unfold_main;
  repeat lazymatch goal with
         | |- context [fst ?t] =>
             let y := waits_for t in
             destruct y eqn:?; unfold_main
         end.

Ltac use_sends :=
  repeat match goal with
         | H : upload_document ?k ?w ?t = _ |- _ =>
             let c := fresh "c" in
             let n := fresh "n" in
             let Hs := fresh "Hs" in
             let Ht := fresh "Ht" in
             destruct (upload_document_sends k w t) as (c & n & Hs & Ht);
             rewrite H in Hs, Ht; cbn [fst snd] in Hs, Ht; clear H
         | H : execute_processor_run ?k ?i ?w ?t = _ |- _ =>
             let Hs := fresh "Hs" in
             pose proof (execute_processor_run_sends k i w t) as Hs;
             rewrite H in Hs; cbn [fst] in Hs; clear H
         | H : check_run_status ?k ?i ?w ?t = _ |- _ =>
             let Hs := fresh "Hs" in
             pose proof (check_run_status_sends k i w t) as Hs;
             rewrite H in Hs; cbn [fst] in Hs; clear H
         end.

Ltac pick_prefix :=
  first [ exists 0%nat; do 3 eexists; reflexivity
        | exists 1%nat; do 3 eexists; reflexivity
        | exists 2%nat; do 3 eexists; reflexivity
        | exists 3%nat; do 3 eexists; reflexivity
        | exists 4%nat; do 3 eexists; reflexivity ].

Lemma main_sends key w :
  exists n c id rid,
    sent (fst (main key w [])) =
      firstn n [req1 w key c; req2 w key c; invoke_request key id;
                status_request key rid].
Proof.
  split_main.
  all: subst; use_sends.
  all: try match goal with
           | Ht : forall id, Ret ?a = Ret id -> _, T : truthy ?a = true |- _ =>
               specialize (Ht a eq_refl T); subst
           end.
  all: repeat (tidy_sent;
               match goal with
               | H : sent _ = _ |- _ => rewrite H; clear H
               end).
  all: tidy_sent.
  all: try pick_prefix.
  all: match goal with n : nat |- _ => destruct n as [|[|[|n]]] end;
       cbn [firstn app]; pick_prefix.
  Unshelve.
  all: first [exact JNone | exact nil].
Qed.

Lemma sent_shape w :
  exists n key c id rid,
    sent (fst (run_script w)) =
      firstn n [req1 w key c; req2 w key c; invoke_request key id;
                status_request key rid]
    /\ (n = 0%nat \/ env_service w = Some key).
Proof.
  unfold run_script, script.
  cbv beta iota zeta delta [bind ask print exit negb app].
  destruct (env_truthy (env_anon w)).
  2: { exists 0%nat, EmptyString, nil, JNone, JNone. split; [reflexivity | now left]. }
  destruct (env_service w) as [key|] eqn:Hk.
  2: { exists 0%nat, EmptyString, nil, JNone, JNone. split; [reflexivity | now left]. }
  destruct (env_truthy (Some key)).
  2: { exists 0%nat, EmptyString, nil, JNone, JNone. split; [reflexivity | now left]. }
  destruct (main_sends key w) as (n & c & id & rid & H).
  exists n, key, c, id, rid. split; [exact H | now right].
Qed.

(** ** A run only ever adds to its trace *)

Create HintDb grows.

Lemma grows_ret {A} (a : A) : grows (ret a).
Proof. intros w tr. exists []. cbn. now rewrite app_nil_r. Qed.

Lemma grows_exit {A} (code : Z) : grows (@exit A code).
Proof. intros w tr. exists []. cbn. now rewrite app_nil_r. Qed.

Lemma grows_raise {A} (e : exn) : grows (@raise A e).
Proof. intros w tr. exists []. cbn. now rewrite app_nil_r. Qed.

Lemma grows_ask {A} (f : world -> A) : grows (ask f).
Proof. intros w tr. exists []. cbn. now rewrite app_nil_r. Qed.

Lemma grows_print (line : fstr) : grows (print line).
Proof. intros w tr. now exists [EPrint line]. Qed.

Lemma grows_sleep (secs : Z) : grows (sleep secs).
Proof. intros w tr. now exists [ESleep secs]. Qed.

Lemma send_fst (r : request) w tr : fst (send r w tr) = (tr ++ [ESend r])%list.
Proof. unfold send. now destruct (http w (sent tr) r). Qed.

Lemma grows_send (r : request) : grows (send r).
Proof. intros w tr. exists [ESend r]. apply send_fst. Qed.

Lemma grows_read_test_file : grows read_test_file.
Proof.
  intros w tr. exists []. unfold read_test_file.
  destruct (test_file w); cbn; now rewrite app_nil_r.
Qed.

Lemma grows_bind {A B} (m : M A) (k : A -> M B) :
  grows m -> (forall a, grows (k a)) -> grows (bind m k).
Proof.
  intros Hm Hk w tr. unfold bind.
  destruct (Hm w tr) as [e1 H1].
  destruct (m w tr) as [tr1 [a | code | e]]; cbn [fst] in H1; subst tr1.
  - destruct (Hk a w (tr ++ e1)%list) as [e2 H2].
    exists (e1 ++ e2)%list. now rewrite H2, app_assoc.
  - now exists e1.
  - now exists e1.
Qed.

Lemma grows_if {A} (b : bool) (m1 m2 : M A) :
  grows m1 -> grows m2 -> grows (if b then m1 else m2).
Proof. now destruct b. Qed.

#[local] Hint Resolve grows_ret grows_exit grows_raise grows_ask grows_print
  grows_sleep grows_send grows_read_test_file grows_if : grows.
#[local] Hint Extern 2 (grows (bind _ _)) =>
  apply grows_bind; [ | intros ? ] : grows.
#[local] Hint Extern 3 (grows (match ?x with _ => _ end)) =>
  destruct x : grows.

Lemma grows_response_json r : grows (response_json r).
Proof. unfold response_json. auto with grows. Qed.

Lemma grows_subscript_key v k : grows (subscript_key v k).
Proof. unfold subscript_key. auto with grows. Qed.

Lemma grows_subscript_0 v : grows (subscript_0 v).
Proof. unfold subscript_0. auto 6 with grows. Qed.

Lemma grows_method_get v k d : grows (method_get v k d).
Proof. unfold method_get. auto with grows. Qed.

#[local] Hint Resolve grows_response_json grows_subscript_key grows_subscript_0
  grows_method_get : grows.

Lemma grows_upload_document key : grows (upload_document key).
Proof. unfold upload_document. auto 30 with grows. Qed.

Lemma grows_execute_processor_run key id : grows (execute_processor_run key id).
Proof. unfold execute_processor_run. auto 30 with grows. Qed.

Lemma grows_check_run_status key rid : grows (check_run_status key rid).
Proof. unfold check_run_status. auto 40 with grows. Qed.

#[local] Hint Resolve grows_upload_document grows_execute_processor_run
  grows_check_run_status : grows.

(** ** Stepping through a bind *)

Lemma bind_step {A B} (m : M A) (k : A -> M B) w tr tr' a :
  m w tr = (tr', Ret a) -> bind m k w tr = k a w tr'.
Proof. intros H. unfold bind. now rewrite H. Qed.

Lemma bind_prefix {A B} (m : M A) (k : A -> M B) w tr pre :
  (exists e, fst (m w tr) = (pre ++ e)%list) ->
  (forall a, grows (k a)) ->
  exists e, fst (bind m k w tr) = (pre ++ e)%list.
Proof.
  intros [e1 H1] Hk. unfold bind.
  destruct (m w tr) as [tr1 [a | code | e]]; cbn [fst] in H1; subst tr1.
  - destruct (Hk a w (pre ++ e1)%list) as [e2 H2].
    exists (e1 ++ e2)%list. now rewrite H2, app_assoc.
  - now exists e1.
  - now exists e1.
Qed.

Lemma send_resp (r : request) (x : response) w tr hist :
  sent tr = hist -> http w hist r = Resp x ->
  send r w tr = ((tr ++ [ESend r])%list, Ret x).
Proof. intros <- H. unfold send. now rewrite H. Qed.

Lemma read_some (c : list byte) w tr :
  test_file w = Some c -> read_test_file w tr = (tr, Ret c).
Proof. intros H. unfold read_test_file. now rewrite H. Qed.

(** The history seen by a request: prints and sleeps do not count. *)
Ltac history :=
  rewrite ?sent_app; cbn [sent app]; rewrite ?app_nil_r; reflexivity.

(** Two spellings of the same list of events. *)
Ltac same_trace :=
  unfold exit, ret, upto_status, upto_invoke, upto_insert, upto_upload, banner,
    response_lines, accepted_lines, closing_lines;
  cbn [fst snd]; rewrite <- ?app_assoc; cbn [app]; rewrite ?app_nil_r;
  reflexivity.

Ltac step :=
  first
    [ erewrite bind_step by reflexivity
    | erewrite bind_step by (apply read_some; eassumption)
    | erewrite bind_step by (eapply send_resp; [history | eassumption]) ];
  cbv beta zeta.

Lemma upload_accepted_prefix key w tr c r :
  test_file w = Some c ->
  http w (sent tr) (req1 w key c) = Resp r ->
  is_200_201 r ->
  exists e,
    fst (upload_document key w tr) =
      ((tr ++
        [EPrint [Lit (nl ++ "=== Step 1: Uploading document to Supabase Storage ===")];
         ESend (req1 w key c);
         EPrint [Lit ("✓ Uploaded to storage: " ++ path_of w)];
         EPrint [Lit (nl ++ "=== Step 2: Creating document record in database ===")];
         ESend (req2 w key c)]) ++ e)%list.
Proof.
  intros Hc H1 S1. apply not_in_200_201_false in S1.
  unfold req1, req2, path_of in *. unfold upload_document.
  do 4 step. rewrite S1. do 2 step.
  apply bind_prefix.
  - exists []. rewrite send_fst. same_trace.
  - intros r2. auto 30 with grows.
Qed.

Lemma upload_document_returns key w tr c r1 r2 body kv id :
  test_file w = Some c ->
  http w (sent tr) (req1 w key c) = Resp r1 -> is_200_201 r1 ->
  http w (sent tr ++ [req1 w key c]) (req2 w key c) = Resp r2 ->
  is_200_201 r2 ->
  json_body r2 = Some body -> carries body kv ->
  dict_lookup "id" kv = Some id ->
  upload_document key w tr =
    ((tr ++
      [EPrint [Lit (nl ++ "=== Step 1: Uploading document to Supabase Storage ===")];
       ESend (req1 w key c);
       EPrint [Lit ("✓ Uploaded to storage: " ++ path_of w)];
       EPrint [Lit (nl ++ "=== Step 2: Creating document record in database ===")];
       ESend (req2 w key c);
       EPrint [Lit "✓ Created document record: "; Fmt id]])%list,
     Ret id).
Proof.
  intros Hc H1 S1 H2 S2 J2 Hb L2.
  apply not_in_200_201_false in S1, S2.
  unfold req1, req2, path_of in *. unfold upload_document.
  do 4 step. rewrite S1. do 3 step. rewrite S2.
  unfold response_json. rewrite J2. step.
  destruct Hb as [-> | [rest ->]]; step;
    unfold subscript_key; rewrite L2; do 2 step; same_trace.
Qed.

Lemma execute_processor_run_accepted key id w tr r kv :
  http w (sent tr) (invoke_request key id) = Resp r ->
  status_code r = 202 ->
  json_body r = Some (JDict kv) ->
  execute_processor_run key id w tr =
    ((tr ++
      [EPrint [Lit (nl ++ "=== Step 3: Executing processor run ===")];
       EPrint [Lit "Calling Edge Function with payload: ";
               Dumps (run_payload id) 2];
       ESend (invoke_request key id)] ++
      response_lines r ++ accepted_lines (got_run_id kv))%list,
     Ret (got_run_id kv)).
Proof.
  intros H3 S3 J3. unfold execute_processor_run.
  apply Z.eqb_eq in S3.
  do 5 step. rewrite S3.
  unfold response_json. rewrite J3. step.
  unfold method_get, got_run_id.
  destruct (dict_lookup "run_id" kv); do 4 step; same_trace.
Qed.

Lemma run_main w a key :
  env_anon w = Some a -> a <> "" ->
  env_service w = Some key -> key <> "" ->
  run_script w = main key w [].
Proof.
  intros Ha Hane Hk Hkne. unfold run_script, script.
  step. rewrite Ha, (env_truthy_some a Hane). cbn [negb].
  step. rewrite Hk, (env_truthy_some key Hkne). reflexivity.
Qed.

Lemma run_upload_accepted w a key c :
  configured w a key c -> a <> "" -> key <> "" ->
  upload_ok w key c ->
  exists e, fst (run_script w) = (upto_insert w key c ++ e)%list.
Proof.
  intros (Ha & Hk & Hc) Hane Hkne (r1 & H1 & S1).
  rewrite (run_main w a key Ha Hane Hk Hkne). unfold main.
  do 3 step.
  match goal with
  | |- context [bind (upload_document key) _ w ?t] =>
      destruct (upload_accepted_prefix key w t c r1 Hc H1 S1) as [e He]
  end.
  apply bind_prefix.
  - exists e. rewrite He. same_trace.
  - intros id. auto 30 with grows.
Qed.

Lemma run_invoke_accepted w a key c id r kv :
  configured w a key c -> a <> "" -> key <> "" ->
  upload_ok w key c -> insert_ok w key c id -> truthy id = true ->
  reply3 w key c id = Resp r ->
  status_code r = 202 -> json_body r = Some (JDict kv) ->
  exists e,
    fst (run_script w) =
      (upto_invoke w key c id ++ response_lines r
       ++ accepted_lines (got_run_id kv) ++ e)%list.
Proof.
  intros (Ha & Hk & Hc) Hane Hkne (r1 & H1 & S1)
         (r2 & body & kv2 & H2 & S2 & J2 & Hb & L2) Hid H3 S3 J3.
  rewrite (run_main w a key Ha Hane Hk Hkne). unfold main.
  do 3 step.
  erewrite bind_step
    by (eapply upload_document_returns with (r1 := r1) (r2 := r2); eassumption).
  cbv beta. rewrite Hid. cbn [negb].
  erewrite bind_step
    by (eapply execute_processor_run_accepted; [ | eassumption | eassumption];
        rewrite !sent_app; exact H3).
  cbv beta.
  destruct (truthy (got_run_id kv)); cbn [negb].
  - assert (G : grows
      (sleep 2 ;; check_run_status key (got_run_id kv) ;;
       print [Lit (nl ++ "=== Test Complete ===")] ;;
       print [Lit "Run ID: "; Fmt (got_run_id kv)] ;;
       print [Lit "Document ID: "; Fmt id] ;;
       print [Lit (nl ++ "Monitor progress:")] ;;
       print [Lit ("  Runs: " ++ SUPABASE_URL
                   ++ "/project/xczippkxxdqlvaacjexj/editor?table=runs")] ;;
       print [Lit ("  Operation Results: " ++ SUPABASE_URL
                   ++ "/project/xczippkxxdqlvaacjexj/editor?table=operation_results")]))
      by auto 30 with grows.
    match goal with |- context [fst (_ w ?t)] => destruct (G w t) as [e He] end.
    exists e. rewrite He. same_trace.
  - exists []. same_trace.
Qed.

(** ** Independence from the anonymous key *)

Create HintDb anon.

Lemma ignores_anon_ret {A} (a : A) : ignores_anon (ret a).
Proof. now intros w k tr. Qed.

Lemma ignores_anon_exit {A} (code : Z) : ignores_anon (@exit A code).
Proof. now intros w k tr. Qed.

Lemma ignores_anon_raise {A} (e : exn) : ignores_anon (@raise A e).
Proof. now intros w k tr. Qed.

Lemma ignores_anon_print (line : fstr) : ignores_anon (print line).
Proof. now intros w k tr. Qed.

Lemma ignores_anon_sleep (secs : Z) : ignores_anon (sleep secs).
Proof. now intros w k tr. Qed.

Lemma ignores_anon_urandom : ignores_anon (ask urandom4).
Proof. now intros w k tr. Qed.

Lemma ignores_anon_send (r : request) : ignores_anon (send r).
Proof. now intros w k tr. Qed.

Lemma ignores_anon_read : ignores_anon read_test_file.
Proof. now intros w k tr. Qed.

Lemma ignores_anon_bind {A B} (m : M A) (f : A -> M B) :
  ignores_anon m -> (forall a, ignores_anon (f a)) -> ignores_anon (bind m f).
Proof.
  intros Hm Hf w k tr. unfold bind. rewrite Hm.
  destruct (m w tr) as [tr1 [a | code | e]]; [apply Hf | reflexivity ..].
Qed.

Lemma ignores_anon_if {A} (b : bool) (m1 m2 : M A) :
  ignores_anon m1 -> ignores_anon m2 -> ignores_anon (if b then m1 else m2).
Proof. now destruct b. Qed.

#[local] Hint Resolve ignores_anon_ret ignores_anon_exit ignores_anon_raise
  ignores_anon_print ignores_anon_sleep ignores_anon_urandom
  ignores_anon_send ignores_anon_read ignores_anon_if : anon.
#[local] Hint Extern 2 (ignores_anon (bind _ _)) =>
  apply ignores_anon_bind; [ | intros ? ] : anon.
#[local] Hint Extern 3 (ignores_anon (match ?x with _ => _ end)) =>
  destruct x : anon.

Lemma main_ignores_anon (key : string) : ignores_anon (main key).
Proof.
  unfold main, upload_document, execute_processor_run, check_run_status,
    response_json, subscript_key, subscript_0, method_get.
  auto 60 with anon.
Qed.

(** * Every run, and each step on its own

    What every run does, whatever its surroundings, is read off lemmas about
    the three functions taken one at a time; what a run does along one path
    is read off by stepping through the binds. *)

(** ** Requests, sleeps and exits of each function *)

Lemma sleeps_app (t1 t2 : trace) :
  sleeps (t1 ++ t2)%list = (sleeps t1 ++ sleeps t2)%list.
Proof.
  induction t1 as [|[l|r|s] t1 IH]; cbn [sleeps app]; rewrite ?IH; reflexivity.
Qed.

Ltac split_fn :=
  unfold_py;
  repeat lazymatch goal with
         | |- context [fst ?t] =>
             let y := waits_for t in
             destruct y eqn:?; unfold_py
         end.

Ltac tidy_trace :=
  cbn [fst snd]; rewrite ?sent_app, ?sleeps_app; cbn [sent sleeps];
  rewrite ?app_nil_r; rewrite <- ?app_assoc; cbn [app].

Lemma execute_processor_run_effects key id w tr :
  sent (fst (execute_processor_run key id w tr)) =
    (sent tr ++ [invoke_request key id])%list
  /\ sleeps (fst (execute_processor_run key id w tr)) = sleeps tr
  /\ (forall code, snd (execute_processor_run key id w tr) <> Exit code).
Proof.
  split_fn.
  all: tidy_trace; repeat split; discriminate.
Qed.

Lemma check_run_status_effects key rid w tr :
  sent (fst (check_run_status key rid w tr)) =
    (sent tr ++ [status_request key rid])%list
  /\ sleeps (fst (check_run_status key rid w tr)) = sleeps tr
  /\ (forall code, snd (check_run_status key rid w tr) <> Exit code).
Proof.
  split_fn.
  all: tidy_trace; repeat split; discriminate.
Qed.

Lemma upload_document_effects key w tr :
  exists c n,
    sent (fst (upload_document key w tr)) =
      (sent tr ++ firstn n [req1 w key c; req2 w key c])%list
    /\ (n <= 2)%nat
    /\ (n <> 0%nat -> test_file w = Some c)
    /\ (forall id, snd (upload_document key w tr) = Ret id ->
                   truthy id = true -> n = 2%nat)
    /\ sleeps (fst (upload_document key w tr)) = sleeps tr
    /\ (forall code, snd (upload_document key w tr) <> Exit code).
Proof.
  split_fn.
  all: first
    [ eexists; exists 2%nat; split; [ tidy_trace; reflexivity | ];
      split; [ lia | ]; split; [ intros _; reflexivity | ];
      split; [ cbn [snd]; intros ? E T; reflexivity | ];
      split; [ tidy_trace; reflexivity | cbn [snd]; discriminate ]
    | eexists; exists 1%nat; split; [ tidy_trace; reflexivity | ];
      split; [ lia | ]; split; [ intros _; reflexivity | ];
      split; [ cbn [snd]; intros ? E T;
               first [discriminate E | injection E as <-; discriminate T] | ];
      split; [ tidy_trace; reflexivity | cbn [snd]; discriminate ]
    | exists nil, 0%nat; split; [ tidy_trace; reflexivity | ];
      split; [ lia | ]; split; [ intros N; now elim N | ];
      split; [ cbn [snd]; intros ? E T;
               first [discriminate E | injection E as <-; discriminate T] | ];
      split; [ tidy_trace; reflexivity | cbn [snd]; discriminate ] ].
Qed.

Ltac use_effects :=
  repeat match goal with
         | H : upload_document ?k ?w ?t = _ |- _ =>
             let c := fresh "c" in
             let n := fresh "n" in
             let Hs := fresh "Hs" in
             let Hn := fresh "Hn" in
             let Hf := fresh "Hf" in
             let Ht := fresh "Ht" in
             let Hz := fresh "Hz" in
             let Hx := fresh "Hx" in
             destruct (upload_document_effects k w t)
               as (c & n & Hs & Hn & Hf & Ht & Hz & Hx);
             rewrite H in Hs, Ht, Hz, Hx; cbn [fst snd] in Hs, Ht, Hz, Hx;
             clear H
         | H : execute_processor_run ?k ?i ?w ?t = _ |- _ =>
             let Hs := fresh "Hs" in
             let Hz := fresh "Hz" in
             let Hx := fresh "Hx" in
             destruct (execute_processor_run_effects k i w t) as (Hs & Hz & Hx);
             rewrite H in Hs, Hz, Hx; cbn [fst snd] in Hs, Hz, Hx; clear H
         | H : check_run_status ?k ?i ?w ?t = _ |- _ =>
             let Hs := fresh "Hs" in
             let Hz := fresh "Hz" in
             let Hx := fresh "Hx" in
             destruct (check_run_status_effects k i w t) as (Hs & Hz & Hx);
             rewrite H in Hs, Hz, Hx; cbn [fst snd] in Hs, Hz, Hx; clear H
         end.

Ltac close_leaf k :=
  exists k; eexists; do 2 eexists;
  split; [ reflexivity | ];
  split; [ lia | ];
  split; [ first [ intros N; now elim N
                 | intros _;
                   match goal with
                   | Hf : _ -> test_file _ = _ |- _ => apply Hf; discriminate
                   end ] | ];
  split; [ intros E; first [discriminate E | reflexivity] | ];
  split; [ reflexivity | ];
  intros code E; first [discriminate E | injection E as <-; reflexivity].

Lemma main_effects key w :
  exists n c id rid,
    sent (fst (main key w [])) =
      firstn n [req1 w key c; req2 w key c; invoke_request key id;
                status_request key rid]
    /\ (n <= 4)%nat
    /\ (n <> 0%nat -> test_file w = Some c)
    /\ (snd (main key w []) = Ret tt -> n = 4%nat)
    /\ sleeps (fst (main key w [])) = (if Nat.eqb n 4 then [2] else [])
    /\ (forall code, snd (main key w []) = Exit code -> code = 1).
Proof.
  split_main.
  all: subst; use_effects.
  all: try (exfalso;
            match goal with
            | H : forall code, Exit ?x <> Exit code |- _ => exact (H x eq_refl)
            end).
  all: try match goal with
           | Ht : forall id, Ret ?a = Ret id -> _, T : truthy ?a = true |- _ =>
               specialize (Ht a eq_refl T); subst
           end.
  all: repeat (tidy_trace;
               first [ match goal with
                       | H : sent _ = _ |- _ => rewrite H; clear H
                       end
                     | match goal with
                       | H : sleeps _ = _ |- _ => rewrite H; clear H
                       end ]).
  all: tidy_trace.
  all: try match goal with
           | Hn : (?n <= 2)%nat |- context [firstn ?n _] =>
               destruct n as [|[|[|n]]]; [ | | | exfalso; lia ]
           end.
  all: cbn [firstn app].
  all: first [ close_leaf 0%nat | close_leaf 1%nat | close_leaf 2%nat
             | close_leaf 3%nat | close_leaf 4%nat ].
  Unshelve.
  all: first [exact JNone | exact nil].
Qed.

Lemma run_effects w :
  exists n key c id rid,
    sent (fst (run_script w)) =
      firstn n [req1 w key c; req2 w key c; invoke_request key id;
                status_request key rid]
    /\ (n <= 4)%nat
    /\ (n <> 0%nat -> env_service w = Some key /\ test_file w = Some c)
    /\ (snd (run_script w) = Ret tt -> n = 4%nat)
    /\ sleeps (fst (run_script w)) = (if Nat.eqb n 4 then [2] else [])
    /\ (forall code, snd (run_script w) = Exit code -> code = 1).
Proof.
  assert (stop : forall line,
    exists n key c id rid,
      sent (fst ([EPrint line], @Exit unit 1)) =
        firstn n [req1 w key c; req2 w key c; invoke_request key id;
                  status_request key rid]
      /\ (n <= 4)%nat
      /\ (n <> 0%nat -> env_service w = Some key /\ test_file w = Some c)
      /\ (snd ([EPrint line], @Exit unit 1) = Ret tt -> n = 4%nat)
      /\ sleeps (fst ([EPrint line], @Exit unit 1)) =
           (if Nat.eqb n 4 then [2] else [])
      /\ (forall code, snd ([EPrint line], @Exit unit 1) = Exit code ->
                       code = 1)).
  { intros line. exists 0%nat, EmptyString, nil, JNone, JNone.
    cbn [fst snd sent sleeps firstn Nat.eqb].
    repeat split; try lia; try discriminate; try (intros N; now elim N).
    intros code E. now injection E as <-. }
  unfold run_script, script.
  cbv beta iota zeta delta [bind ask print exit negb app].
  destruct (env_truthy (env_anon w)); [ | apply stop ].
  destruct (env_service w) as [key|] eqn:Hk; [ | apply stop ].
  destruct (env_truthy (Some key)); [ | apply stop ].
  destruct (main_effects key w) as (n & c & id & rid & H1 & H2 & H3 & H4 & H5 & H6).
  exists n, key, c, id, rid. repeat split; auto.
Qed.

(** ** How the steps compose *)

Lemma bind_stop {A B} (m : M A) (k : A -> M B) w tr tr' e :
  m w tr = (tr', Raise e) -> bind m k w tr = (tr', Raise e).
Proof. intros H. unfold bind. now rewrite H. Qed.

Lemma send_none (r : request) w tr hist :
  sent tr = hist -> http w hist r = NoResp ->
  send r w tr = ((tr ++ [ESend r])%list, Raise RequestException).
Proof. intros <- H. unfold send. now rewrite H. Qed.

Lemma read_none w tr :
  test_file w = None -> read_test_file w tr = (tr, Raise OSError).
Proof. intros H. unfold read_test_file. now rewrite H. Qed.

Ltac stop :=
  first
    [ erewrite bind_stop by reflexivity
    | erewrite bind_stop by (apply read_none; eassumption)
    | erewrite bind_stop by (eapply send_none; [history | eassumption]) ].

Lemma main_upload_raises key w tr e :
  upload_document key w banner = (tr, Raise e) ->
  main key w [] = (tr, Raise e).
Proof.
  intros H. unfold main. do 3 step. cbn [app].
  now apply bind_stop.
Qed.

Lemma main_upload_falsy key w tr id :
  upload_document key w banner = (tr, Ret id) -> truthy id = false ->
  main key w [] = (tr, Exit 1).
Proof.
  intros H T. unfold main. do 3 step. cbn [app].
  erewrite bind_step by exact H. cbv beta. now rewrite T.
Qed.

Lemma main_invoke_raises key w tr1 id tr2 e :
  upload_document key w banner = (tr1, Ret id) -> truthy id = true ->
  execute_processor_run key id w tr1 = (tr2, Raise e) ->
  main key w [] = (tr2, Raise e).
Proof.
  intros H1 T1 H2. unfold main. do 3 step. cbn [app].
  erewrite bind_step by exact H1. cbv beta. rewrite T1. cbn [negb].
  now apply bind_stop.
Qed.

Lemma main_reaches_status key w tr1 id tr2 rid :
  upload_document key w banner = (tr1, Ret id) -> truthy id = true ->
  execute_processor_run key id w tr1 = (tr2, Ret rid) -> truthy rid = true ->
  main key w [] =
    finish id rid (check_run_status key rid w (tr2 ++ [ESleep 2])%list).
Proof.
  intros H1 T1 H2 T2. unfold main. do 3 step. cbn [app].
  erewrite bind_step by exact H1. cbv beta. rewrite T1. cbn [negb].
  erewrite bind_step by exact H2. cbv beta. rewrite T2. cbn [negb].
  step. unfold finish, bind at 1.
  destruct (check_run_status key rid w (tr2 ++ [ESleep 2])%list)
    as [tr3 [run | code | e]]; [ | reflexivity | reflexivity ].
  do 5 step. unfold print, closing_lines. rewrite <- !app_assoc. reflexivity.
Qed.

(** ** Step 4 on its own *)

Section Step4.
Variables (key : string) (rid : json) (w : world) (tr : trace).

Lemma check_no_response :
  http w (sent tr) (status_request key rid) = NoResp ->
  check_run_status key rid w tr =
    ((tr ++ [step4_line; ESend (status_request key rid)])%list,
     Raise RequestException).
Proof.
  intros H. unfold check_run_status. step. stop. same_trace.
Qed.

Variable r : response.
Hypothesis answered : http w (sent tr) (status_request key rid) = Resp r.
Hypothesis ok : status_code r = 200.

Lemma check_not_json :
  json_body r = None ->
  check_run_status key rid w tr =
    ((tr ++ [step4_line; ESend (status_request key rid)])%list,
     Raise JSONDecodeError).
Proof.
  intros J. apply Z.eqb_eq in ok. unfold check_run_status.
  do 2 step. rewrite ok. unfold response_json. rewrite J.
  stop. same_trace.
Qed.

Lemma check_falsy (v : json) :
  json_body r = Some v -> truthy v = false ->
  check_run_status key rid w tr =
    ((tr ++ [step4_line; ESend (status_request key rid)])%list, Ret JNone).
Proof.
  intros J T. apply Z.eqb_eq in ok. unfold check_run_status.
  do 2 step. rewrite ok. unfold response_json. rewrite J.
  step. rewrite T. same_trace.
Qed.

Lemma check_row_not_dict (row : json) (rows : list json) :
  json_body r = Some (JList (row :: rows)) -> is_dict row = false ->
  check_run_status key rid w tr =
    ((tr ++ [step4_line; ESend (status_request key rid)])%list,
     Raise TypeError).
Proof.
  intros J D. apply Z.eqb_eq in ok. unfold check_run_status.
  do 2 step. rewrite ok. unfold response_json. rewrite J.
  step. cbn [truthy]. step.
  destruct row; try discriminate D; stop; same_trace.
Qed.

Lemma check_dict_body (item : string * json) (items : list (string * json)) :
  json_body r = Some (JDict (item :: items)) ->
  check_run_status key rid w tr =
    ((tr ++ [step4_line; ESend (status_request key rid)])%list,
     Raise KeyError).
Proof.
  intros J. apply Z.eqb_eq in ok. unfold check_run_status.
  do 2 step. rewrite ok. unfold response_json. rewrite J.
  step. cbn [truthy]. stop. same_trace.
Qed.

Lemma check_incomplete_row (fields : list (string * json)) (rows : list json) :
  json_body r = Some (JList (JDict fields :: rows)) ->
  complete_row (JDict fields) = false ->
  snd (check_run_status key rid w tr) = Raise KeyError.
Proof.
  intros J Hrow. apply Z.eqb_eq in ok. unfold check_run_status.
  do 2 step. rewrite ok. unfold response_json. rewrite J.
  step. cbn [truthy]. step.
  unfold complete_row, has_key in Hrow. cbn [forallb] in Hrow.
  unfold subscript_key.
  destruct (dict_lookup "status" fields); [ do 2 step | now stop ].
  destruct (dict_lookup "total_operations" fields); [ do 2 step | now stop ].
  destruct (dict_lookup "completed_operations" fields);
    [ do 2 step | now stop ].
  destruct (dict_lookup "failed_operations" fields); [ do 2 step | now stop ].
  destruct (dict_lookup "started_at" fields); [ | now stop ].
  discriminate Hrow.
Qed.
End Step4.

(** ** Steps 1 and 2 on their own *)

Section Steps12.
Variables (key : string) (w : world) (tr : trace).

Lemma upload_unreadable :
  test_file w = None ->
  upload_document key w tr = ((tr ++ [step1_line])%list, Raise OSError).
Proof.
  intros H. unfold upload_document. do 2 step. now stop.
Qed.

Variable c : list byte.
Hypothesis readable : test_file w = Some c.

Lemma upload_no_response :
  http w (sent tr) (req1 w key c) = NoResp ->
  upload_document key w tr =
    ((tr ++ [step1_line; ESend (req1 w key c)])%list,
     Raise RequestException).
Proof.
  intros H. unfold req1, path_of in H. unfold upload_document.
  do 3 step. stop. same_trace.
Qed.

Variable r1 : response.
Hypothesis stored1 : http w (sent tr) (req1 w key c) = Resp r1.
Hypothesis ok1 : is_200_201 r1.

Lemma insert_no_response :
  http w (sent tr ++ [req1 w key c]) (req2 w key c) = NoResp ->
  upload_document key w tr =
    ((tr ++ [step1_line; ESend (req1 w key c)] ++ step2_lines w
      ++ [ESend (req2 w key c)])%list,
     Raise RequestException).
Proof.
  intros H. apply not_in_200_201_false in ok1.
  unfold req1, req2, path_of in *. unfold upload_document.
  do 4 step. rewrite ok1. do 2 step. stop.
  unfold step2_lines, path_of. same_trace.
Qed.

Variable r2 : response.
Hypothesis stored2 :
  http w (sent tr ++ [req1 w key c]) (req2 w key c) = Resp r2.
Hypothesis ok2 : is_200_201 r2.

Lemma insert_not_json :
  json_body r2 = None ->
  upload_document key w tr =
    ((tr ++ [step1_line; ESend (req1 w key c)] ++ step2_lines w
      ++ [ESend (req2 w key c)])%list,
     Raise JSONDecodeError).
Proof.
  intros J. apply not_in_200_201_false in ok1, ok2.
  unfold req1, req2, path_of in *. unfold upload_document.
  do 4 step. rewrite ok1. do 3 step. rewrite ok2.
  unfold response_json. rewrite J. stop.
  unfold step2_lines, path_of. same_trace.
Qed.

Lemma insert_not_object (body record : json) :
  json_body r2 = Some body ->
  unwrapped body = Some record -> is_dict record = false ->
  upload_document key w tr =
    ((tr ++ [step1_line; ESend (req1 w key c)] ++ step2_lines w
      ++ [ESend (req2 w key c)])%list,
     Raise TypeError).
Proof.
  intros J U D. apply not_in_200_201_false in ok1, ok2.
  unfold req1, req2, path_of in *. unfold upload_document.
  do 4 step. rewrite ok1. do 3 step. rewrite ok2.
  unfold response_json. rewrite J. step.
  destruct body as [ | | | | | [|x l] | ]; cbn [unwrapped] in U;
    try discriminate U; injection U as <-; try discriminate D;
    step; try (destruct x; try discriminate D);
    stop; unfold step2_lines, path_of; same_trace.
Qed.
End Steps12.

(** ** Step 3 on its own *)

Section Step3.
Variables (key : string) (id : json) (w : world) (tr : trace).

Lemma invoke_no_response :
  http w (sent tr) (invoke_request key id) = NoResp ->
  execute_processor_run key id w tr =
    ((tr ++ step3_lines id ++ [ESend (invoke_request key id)])%list,
     Raise RequestException).
Proof.
  intros H. unfold execute_processor_run. do 2 step. stop.
  unfold step3_lines. same_trace.
Qed.

Variable r : response.
Hypothesis answered : http w (sent tr) (invoke_request key id) = Resp r.
Hypothesis accepted : status_code r = 202.

Lemma invoke_not_json :
  json_body r = None ->
  execute_processor_run key id w tr =
    ((tr ++ step3_lines id ++ [ESend (invoke_request key id)]
      ++ response_lines r)%list,
     Raise JSONDecodeError).
Proof.
  intros J. apply Z.eqb_eq in accepted. unfold execute_processor_run.
  do 5 step. rewrite accepted. unfold response_json. rewrite J. stop.
  unfold step3_lines. same_trace.
Qed.

Lemma invoke_not_object (v : json) :
  json_body r = Some v -> is_dict v = false ->
  execute_processor_run key id w tr =
    ((tr ++ step3_lines id ++ [ESend (invoke_request key id)]
      ++ response_lines r)%list,
     Raise AttributeError).
Proof.
  intros J D. apply Z.eqb_eq in accepted. unfold execute_processor_run.
  do 5 step. rewrite accepted. unfold response_json. rewrite J. step.
  destruct v; try discriminate D; stop; unfold step3_lines; same_trace.
Qed.
End Step3.

(** ** From the stages to the run *)

Ltac same_run :=
  unfold finish, step1_line, step2_lines, step3_lines, step4_line, exit, ret,
    upto_status, upto_invoke, upto_insert, upto_upload, banner,
    response_lines, accepted_lines, closing_lines, req1, req2, path_of;
  cbn [fst snd]; rewrite <- ?app_assoc; cbn [app]; rewrite ?app_nil_r;
  reflexivity.

Lemma created_returns w a key c id :
  document_created w a key c id ->
  run_script w = main key w []
  /\ upload_document key w banner =
       ((upto_insert w key c
         ++ [EPrint [Lit "✓ Created document record: "; Fmt id]])%list,
        Ret id).
Proof.
  intros (((Ha & Hk & Hc) & Hane & Hkne & (r1 & H1 & S1))
          & (r2 & body & kv & H2 & S2 & J2 & Hb & L2) & Hid).
  split; [ now apply run_main with (a := a) | ].
  rewrite (upload_document_returns key w banner c r1 r2 body kv id
             Hc H1 S1 H2 S2 J2 Hb L2).
  same_run.
Qed.

Lemma accepted_returns w a key c id rid :
  run_accepted w a key c id rid ->
  exists r3,
    reply3 w key c id = Resp r3
    /\ execute_processor_run key id w
         (upto_insert w key c
          ++ [EPrint [Lit "✓ Created document record: "; Fmt id]])%list =
       ((upto_invoke w key c id ++ response_lines r3
         ++ accepted_lines rid)%list,
        Ret rid).
Proof.
  intros (Hdoc & (r3 & kv & H3 & S3 & J3 & L3) & Hrid).
  exists r3. split; [ exact H3 | ].
  assert (G : got_run_id kv = rid) by (unfold got_run_id; now rewrite L3).
  erewrite execute_processor_run_accepted; [ | exact H3 | exact S3 | exact J3 ].
  rewrite G. same_run.
Qed.

Lemma run_reaches_status w a key c id rid :
  run_accepted w a key c id rid ->
  exists r3,
    reply3 w key c id = Resp r3
    /\ run_script w =
         finish id rid
           (check_run_status key rid w
              (upto_invoke w key c id ++ response_lines r3
               ++ accepted_lines rid ++ [ESleep 2])%list).
Proof.
  intros Hacc. pose proof Hacc as (Hdoc & _ & Hrid).
  destruct (created_returns w a key c id Hdoc) as [-> Hup].
  pose proof Hdoc as (_ & _ & Hid).
  destruct (accepted_returns w a key c id rid Hacc) as (r3 & H3 & Hex).
  exists r3. split; [ exact H3 | ].
  rewrite (main_reaches_status key w _ id _ rid Hup Hid Hex Hrid).
  now rewrite <- !app_assoc.
Qed.

(** ** The calls a run is bound to make *)

Lemma invoke_sent_prefix key id w tr :
  exists e,
    fst (execute_processor_run key id w tr) =
      ((tr ++ step3_lines id ++ [ESend (invoke_request key id)]) ++ e)%list.
Proof.
  unfold execute_processor_run. do 2 step. apply bind_prefix.
  - exists []. rewrite send_fst. same_run.
  - intros r. auto 30 with grows.
Qed.

Lemma run_reaches_invoke w a key c id :
  document_created w a key c id ->
  exists e, fst (run_script w) = (upto_invoke w key c id ++ e)%list.
Proof.
  intros Hdoc.
  destruct (created_returns w a key c id Hdoc) as [-> Hup].
  pose proof Hdoc as (_ & _ & Hid).
  unfold main. do 3 step. cbn [app].
  erewrite bind_step by exact Hup. cbv beta. rewrite Hid. cbn [negb].
  apply bind_prefix.
  - match goal with
    | |- context [execute_processor_run key id w ?t] =>
        destruct (invoke_sent_prefix key id w t) as [e He]
    end.
    exists e. rewrite He. same_run.
  - intros rid. auto 30 with grows.
Qed.

Lemma finish_sent id rid p : sent (fst (finish id rid p)) = sent (fst p).
Proof.
  destruct p as [tr [v | code | e]]; cbn [finish fst]; try reflexivity.
  rewrite sent_app. cbn [closing_lines sent]. now rewrite app_nil_r.
Qed.

Lemma run_accepted_sends w a key c id rid :
  run_accepted w a key c id rid ->
  sent (fst (run_script w)) =
    [req1 w key c; req2 w key c; invoke_request key id;
     status_request key rid].
Proof.
  intros Hacc.
  destruct (run_reaches_status w a key c id rid Hacc) as (r3 & _ & ->).
  rewrite finish_sent, check_run_status_sends. reflexivity.
Qed.

(** Showing that a concrete world has reached a stage. *)
Ltac show_200_201 := first [left; reflexivity | right; reflexivity].
Ltac show_upload_ok := eexists; split; [reflexivity | show_200_201].
Ltac show_insert_ok :=
  do 3 eexists; split; [ reflexivity | ]; split; [ show_200_201 | ];
  split; [ reflexivity | ];
  split; [ first [left; reflexivity | right; eexists; reflexivity]
         | reflexivity ].
Ltac show_invoke_ok := do 2 eexists; repeat split; reflexivity.
Ltac show_uploaded :=
  split; [ repeat split; reflexivity | ];
  split; [ discriminate | ]; split; [ discriminate | show_upload_ok ].
Ltac show_created :=
  split; [ show_uploaded | split; [ show_insert_ok | reflexivity ] ].
Ltac show_accepted :=
  split; [ show_created | split; [ show_invoke_ok | reflexivity ] ].

(** * The claims *)

(** ** Missing credentials *)

(** C3. If either required environment variable is absent, the script
    prints one error line naming a variable and exits with code 1; its trace
    holds no request. *)
Theorem missing_credential_exits_before_network (w : world) :
  env_anon w = None \/ env_service w = None ->
  exists name,
    (name = "NEXT_PUBLIC_SUPABASE_PUBLISHABLE_OR_ANON_KEY"
     \/ name = "SUPABASE_SERVICE_ROLE_KEY")
    /\ run_script w =
         ([EPrint [Lit ("ERROR: " ++ name ++ " not found in environment")]],
          Exit 1)
    /\ sent (fst (run_script w)) = []
    /\ exit_code (snd (run_script w)) = 1.
Proof.
  intros H.
  destruct (env_truthy (env_anon w)) eqn:Ta.
  - assert (Ts : env_truthy (env_service w) = false).
    { destruct H as [H | H]; rewrite H in *; [discriminate Ta | reflexivity]. }
    exists "SUPABASE_SERVICE_ROLE_KEY".
    rewrite (run_no_service w Ta Ts). repeat split. now right.
  - exists "NEXT_PUBLIC_SUPABASE_PUBLISHABLE_OR_ANON_KEY".
    rewrite (run_no_anon w Ta). repeat split. now left.
Qed.

(** The theorem at a run without the anonymous key. *)
Lemma missing_credential_witness :
  exists name,
    (name = "NEXT_PUBLIC_SUPABASE_PUBLISHABLE_OR_ANON_KEY"
     \/ name = "SUPABASE_SERVICE_ROLE_KEY")
    /\ run_script world_without_anon =
         ([EPrint [Lit ("ERROR: " ++ name ++ " not found in environment")]],
          Exit 1)
    /\ sent (fst (run_script world_without_anon)) = []
    /\ exit_code (snd (run_script world_without_anon)) = 1.
Proof.
  apply (missing_credential_exits_before_network world_without_anon).
  left. reflexivity.
Defined.

(** ** The storage upload *)

(** C4. The upload counts as a success exactly for the statuses 200 and
    201: then the run goes on to print the upload line and to send the
    insert; for any other status it prints the status and the response
    body, exits with code 1, and the upload is the only request sent. *)
Theorem upload_succeeds_iff_200_or_201 (w : world) (a key : string)
    (c : list byte) (r : response) :
  configured w a key c -> a <> "" -> key <> "" ->
  reply1 w key c = Resp r ->
  (is_200_201 r ->
     exists e, fst (run_script w) = (upto_insert w key c ++ e)%list)
  /\ (~ is_200_201 r ->
        run_script w =
          ((upto_upload w key c ++
            [EPrint [Lit "ERROR: Failed to upload to storage: ";
                     Fmt (JInt (status_code r))];
             EPrint [Lit (text r)]])%list,
           Exit 1)
        /\ sent (fst (run_script w)) = [req1 w key c]).
Proof.
  intros Hcfg Ha Hk H1. split.
  - intros S. apply (run_upload_accepted w a key c Hcfg Ha Hk).
    exists r. now split.
  - intros S.
    assert (N200 : status_code r <> 200) by (intros E; apply S; now left).
    assert (N201 : status_code r <> 201) by (intros E; apply S; now right).
    rewrite (run_upload_rejected w a key c r Hcfg Ha Hk H1 N200 N201).
    split; reflexivity.
Qed.

(** The theorem at a run whose upload is answered with 500. *)
Lemma upload_refused_witness :
  run_script world_upload_refused =
    ((upto_upload world_upload_refused "service" sample_file ++
      [EPrint [Lit "ERROR: Failed to upload to storage: "; Fmt (JInt 500)];
       EPrint [Lit "refused"]])%list,
     Exit 1)
  /\ sent (fst (run_script world_upload_refused)) =
       [req1 world_upload_refused "service" sample_file].
Proof.
  apply (upload_succeeds_iff_200_or_201 world_upload_refused "anon" "service"
           sample_file refused).
  - repeat split; reflexivity.
  - discriminate.
  - discriminate.
  - reflexivity.
  - intros [H | H]; discriminate H.
Defined.

(** ** The document insert *)

(** C10. When the insert is answered with 200 or 201 and the JSON body
    [[]], the run stops right after the insert request with an IndexError
    nobody catches: it does not reach an [exit(1)]. *)
Theorem empty_insert_list_raises_IndexError (w : world) (a key : string)
    (c : list byte) (r : response) :
  configured w a key c -> a <> "" -> key <> "" ->
  upload_ok w key c ->
  reply2 w key c = Resp r -> is_200_201 r ->
  json_body r = Some (JList []) ->
  run_script w = (upto_insert w key c, Raise IndexError)
  /\ (forall code, snd (run_script w) <> Exit code).
Proof.
  intros Hcfg Ha Hk Hup H2 S2 J2.
  rewrite (run_insert_empty_list w a key c r Hcfg Ha Hk Hup H2 S2 J2).
  split; [reflexivity | discriminate].
Qed.

(** The theorem at a run whose insert is answered with 201 and [[]]. *)
Lemma empty_insert_list_witness :
  run_script world_insert_empty_list =
    (upto_insert world_insert_empty_list "service" sample_file,
     Raise IndexError)
  /\ (forall code, snd (run_script world_insert_empty_list) <> Exit code).
Proof.
  apply (empty_insert_list_raises_IndexError world_insert_empty_list
           "anon" "service" sample_file empty_list).
  - repeat split; reflexivity.
  - discriminate.
  - discriminate.
  - exists stored. split; [reflexivity | right; reflexivity].
  - reflexivity.
  - right; reflexivity.
  - reflexivity.
Defined.

(** C6, as stated, fails for the 'run_id' field: a 202 answer whose JSON
    object has no 'run_id' raises nothing; the run ends by [exit(1)]. *)
Lemma absent_run_id_is_no_fault :
  reply3 world_invoke_without_run_id "service" sample_file doc_1 = Resp no_run_id
  /\ status_code no_run_id = 202
  /\ json_body no_run_id = Some (JDict [])
  /\ dict_lookup "run_id" [] = None
  /\ snd (run_script world_invoke_without_run_id) = Exit 1
  /\ (forall e, snd (run_script world_invoke_without_run_id) <> Raise e).
Proof. repeat split; discriminate. Qed.

(** C6, amended.  An insert answered with 200 or 201 and a record without
    'id' stops the run with a KeyError nobody catches.  A function call
    answered with 202 and an object without 'run_id' raises nothing:
    [result.get('run_id')] is None, the acceptance lines are printed with
    it, and the run ends by [exit(1)] before the status check. *)
Theorem absent_field_behaviour (w : world) (a key : string) (c : list byte) :
  configured w a key c -> a <> "" -> key <> "" ->
  upload_ok w key c ->
  (forall r body kv,
      reply2 w key c = Resp r -> is_200_201 r ->
      json_body r = Some body -> carries body kv ->
      dict_lookup "id" kv = None ->
      run_script w = (upto_insert w key c, Raise KeyError))
  /\ (forall id r kv,
        insert_ok w key c id -> truthy id = true ->
        reply3 w key c id = Resp r -> status_code r = 202 ->
        json_body r = Some (JDict kv) ->
        dict_lookup "run_id" kv = None ->
        run_script w =
          ((upto_invoke w key c id ++ response_lines r
            ++ accepted_lines JNone)%list,
           Exit 1)).
Proof.
  intros Hcfg Ha Hk Hup. split.
  - intros r body kv H2 S2 J2 Hb L2.
    exact (run_id_absent w a key c r body kv Hcfg Ha Hk Hup H2 S2 J2 Hb L2).
  - intros id r kv Hin Hid H3 S3 J3 L3.
    assert (G : got_run_id kv = JNone) by (unfold got_run_id; now rewrite L3).
    rewrite <- G.
    apply (run_invoke_accepted_falsy w a key c id r kv); try assumption.
    now rewrite G.
Qed.

(** The theorem at a run whose insert answer has no 'id', and at a run
    whose function answer has no 'run_id'. *)
Lemma absent_field_witness :
  run_script world_insert_without_id =
    (upto_insert world_insert_without_id "service" sample_file, Raise KeyError)
  /\ run_script world_invoke_without_run_id =
       ((upto_invoke world_invoke_without_run_id "service" sample_file doc_1
         ++ response_lines no_run_id ++ accepted_lines JNone)%list,
        Exit 1).
Proof.
  split.
  - apply (proj1 (absent_field_behaviour world_insert_without_id
                    "anon" "service" sample_file
                    (conj eq_refl (conj eq_refl eq_refl))
                    ltac:(discriminate) ltac:(discriminate)
                    (ex_intro _ stored (conj eq_refl (or_intror eq_refl))))
           no_id (JDict [("name", JStr "test-contract.txt")])
           [("name", JStr "test-contract.txt")]).
    + reflexivity.
    + right; reflexivity.
    + reflexivity.
    + left; reflexivity.
    + reflexivity.
  - apply (proj2 (absent_field_behaviour world_invoke_without_run_id
                    "anon" "service" sample_file
                    (conj eq_refl (conj eq_refl eq_refl))
                    ltac:(discriminate) ltac:(discriminate)
                    (ex_intro _ stored (conj eq_refl (or_intror eq_refl))))
           doc_1 no_run_id []).
    + exists inserted, (JDict [("id", doc_1)]), [("id", doc_1)].
      repeat split; try reflexivity. right; reflexivity. left; reflexivity.
    + reflexivity.
    + reflexivity.
    + reflexivity.
    + reflexivity.
    + reflexivity.
Defined.

(** ** The function invocation *)

(** C5, as stated, fails for a 202 whose body is not JSON: the status is
    202, yet no run identifier is extracted and no acceptance line is
    printed; the run stops with a JSONDecodeError nobody catches. *)
Lemma accepted_status_without_json_raises :
  reply3 world_invoke_not_json "service" sample_file doc_1 = Resp not_json_202
  /\ status_code not_json_202 = 202
  /\ json_body not_json_202 = None
  /\ run_script world_invoke_not_json =
       ((upto_invoke world_invoke_not_json "service" sample_file doc_1
         ++ response_lines not_json_202)%list,
        Raise JSONDecodeError)
  /\ ~ In (EPrint [Lit (nl ++ "✓ Run initiated successfully!")])
          (fst (run_script world_invoke_not_json)).
Proof.
  split; [ reflexivity | ]. split; [ reflexivity | ].
  split; [ reflexivity | ]. split; [ reflexivity | ].
  cbn. intros H.
  repeat (destruct H as [H | H]; [ discriminate H | ]). exact H.
Qed.

(** C5, amended.  For a status other than 202 the failure line is printed,
    the invocation is the third and last request (no retry, no status
    check), and the script exits with code 1.  For 202 the run is taken as
    accepted when the body is a JSON object: the run identifier is read
    from it with [.get('run_id')] and the acceptance lines are printed with
    it.  A 202 whose body is not JSON, or is JSON but not an object, is
    neither accepted nor reported as a failure: after the status and body
    lines the run stops with a JSONDecodeError, respectively an
    AttributeError, nobody catches, without the status check. *)
Theorem function_response_handling (w : world) (a key : string)
    (c : list byte) (id : json) (r : response) :
  configured w a key c -> a <> "" -> key <> "" ->
  upload_ok w key c -> insert_ok w key c id -> truthy id = true ->
  reply3 w key c id = Resp r ->
  (status_code r = 202 ->
     forall kv, json_body r = Some (JDict kv) ->
       exists e,
         fst (run_script w) =
           (upto_invoke w key c id ++ response_lines r
            ++ accepted_lines (got_run_id kv) ++ e)%list)
  /\ (status_code r = 202 -> json_body r = None ->
        run_script w =
          ((upto_invoke w key c id ++ response_lines r)%list,
           Raise JSONDecodeError))
  /\ (status_code r = 202 ->
        forall v, json_body r = Some v -> is_dict v = false ->
          run_script w =
            ((upto_invoke w key c id ++ response_lines r)%list,
             Raise AttributeError))
  /\ (status_code r <> 202 ->
        run_script w =
          ((upto_invoke w key c id ++ response_lines r ++
            [EPrint [Lit (nl ++ "✗ Run failed with status ");
                     Fmt (JInt (status_code r))]])%list,
           Exit 1)
        /\ sent (fst (run_script w)) =
             [req1 w key c; req2 w key c; invoke_request key id]).
Proof.
  intros Hcfg Ha Hk Hup Hin Hid H3.
  assert (Hdoc : document_created w a key c id)
    by exact (conj (conj Hcfg (conj Ha (conj Hk Hup))) (conj Hin Hid)).
  destruct (created_returns w a key c id Hdoc) as [Hmain Hret].
  assert (H3' : http w
            (sent (upto_insert w key c
                   ++ [EPrint [Lit "✓ Created document record: "; Fmt id]])%list)
            (invoke_request key id) = Resp r) by exact H3.
  split; [ | split; [ | split ] ].
  - intros S3 kv J3.
    exact (run_invoke_accepted w a key c id r kv
             Hcfg Ha Hk Hup Hin Hid H3 S3 J3).
  - intros S3 J3. rewrite Hmain.
    rewrite (main_invoke_raises key w _ id _ _ Hret Hid
               (invoke_not_json key id w _ r H3' S3 J3)).
    same_run.
  - intros S3 v J3 D. rewrite Hmain.
    rewrite (main_invoke_raises key w _ id _ _ Hret Hid
               (invoke_not_object key id w _ r H3' S3 v J3 D)).
    same_run.
  - intros S3.
    rewrite (run_invoke_rejected w a key c id r Hcfg Ha Hk Hup Hin Hid H3 S3).
    split; reflexivity.
Qed.

(** The theorem at a run whose function call is answered with 500, and at
    a run whose function call is answered with 202 and a body that is not
    JSON. *)
Lemma function_response_witness :
  (run_script world_invoke_refused =
     ((upto_invoke world_invoke_refused "service" sample_file doc_1
       ++ response_lines refused ++
       [EPrint [Lit (nl ++ "✗ Run failed with status "); Fmt (JInt 500)]])%list,
      Exit 1)
   /\ sent (fst (run_script world_invoke_refused)) =
        [req1 world_invoke_refused "service" sample_file;
         req2 world_invoke_refused "service" sample_file;
         invoke_request "service" doc_1])
  /\ run_script world_invoke_not_json =
       ((upto_invoke world_invoke_not_json "service" sample_file doc_1
         ++ response_lines not_json_202)%list,
        Raise JSONDecodeError).
Proof.
  split.
  - apply (proj2 (proj2 (proj2 (function_response_handling world_invoke_refused
             "anon" "service" sample_file doc_1 refused
             (conj eq_refl (conj eq_refl eq_refl))
             ltac:(discriminate) ltac:(discriminate)
             ltac:(show_upload_ok) ltac:(show_insert_ok) eq_refl eq_refl)))).
    discriminate.
  - apply (proj1 (proj2 (function_response_handling world_invoke_not_json
             "anon" "service" sample_file doc_1 not_json_202
             (conj eq_refl (conj eq_refl eq_refl))
             ltac:(discriminate) ltac:(discriminate)
             ltac:(show_upload_ok) ltac:(show_insert_ok) eq_refl eq_refl))).
    + reflexivity.
    + reflexivity.
Defined.

(** ** The whole run *)

(** C2, as stated, fails: every endpoint answers with its success status,
    the insert carries an 'id', the function answer a 'run_id', the status
    read a non-empty row list, and still the run ends with a KeyError,
    because the row has no 'status' field to print. *)
Lemma incomplete_row_stops_the_run :
  configured world_incomplete_row "anon" "service" sample_file
  /\ upload_ok world_incomplete_row "service" sample_file
  /\ insert_ok world_incomplete_row "service" sample_file doc_1
  /\ invoke_ok world_incomplete_row "service" sample_file doc_1 run_1
  /\ status_ok world_incomplete_row "service" sample_file doc_1 run_1
       [JDict [("state", JStr "queued")]]
  /\ snd (run_script world_incomplete_row) = Raise KeyError
  /\ exit_code (snd (run_script world_incomplete_row)) = 1.
Proof.
  split. { repeat split; reflexivity. }
  split. { exists stored. split; [reflexivity | right; reflexivity]. }
  split. { exists inserted, (JDict [("id", doc_1)]), [("id", doc_1)].
           split; [reflexivity|]. split; [right; reflexivity|].
           split; [reflexivity|]. split; [left; reflexivity | reflexivity]. }
  split. { exists queued, [("run_id", run_1)].
           repeat split; reflexivity. }
  split. { exists incomplete_row. repeat split; reflexivity. }
  split; reflexivity.
Qed.

(** The other ways a run with four successful answers stops early: a
    variable set to the empty string counts as missing, and an 'id' or a
    'run_id' that is present but null fails the guards of lines 162 and
    167. *)
Example empty_anon_key_exits_1 :
  run_script world_empty_anon =
    ([EPrint [Lit "ERROR: NEXT_PUBLIC_SUPABASE_PUBLISHABLE_OR_ANON_KEY not found in environment"]],
     Exit 1).
Proof. reflexivity. Qed.

Example null_id_exits_1 :
  snd (run_script world_null_id) = Exit 1
  /\ sent (fst (run_script world_null_id)) =
       [req1 world_null_id "service" sample_file;
        req2 world_null_id "service" sample_file].
Proof. split; reflexivity. Qed.

Example null_run_id_exits_1 :
  snd (run_script world_null_run_id) = Exit 1
  /\ sent (fst (run_script world_null_run_id)) =
       [req1 world_null_run_id "service" sample_file;
        req2 world_null_run_id "service" sample_file;
        invoke_request "service" doc_1].
Proof. split; reflexivity. Qed.

(** C2, amended.  With both variables set to non-empty values, a readable
    test file, an upload answered 200/201, an insert answered 200/201 with
    a record whose 'id' is truthy, a function call answered 202 with an
    object whose 'run_id' is truthy, and a status read answered 200 with a
    non-empty list whose first row has the five fields the script prints,
    the run sends the four requests in order and ends normally, with exit
    code 0. *)
Theorem full_run_exits_0 (w : world) (a key : string) (c : list byte)
    (id rid row : json) (rows : list json) :
  configured w a key c -> a <> "" -> key <> "" ->
  upload_ok w key c ->
  insert_ok w key c id -> truthy id = true ->
  invoke_ok w key c id rid -> truthy rid = true ->
  status_ok w key c id rid (row :: rows) -> complete_row row = true ->
  sent (fst (run_script w)) =
    [req1 w key c; req2 w key c; invoke_request key id; status_request key rid]
  /\ snd (run_script w) = Ret tt
  /\ exit_code (snd (run_script w)) = 0.
Proof.
  intros Hcfg Ha Hk Hup Hin Hid (r3 & kv & H3 & S3 & J3 & L3) Hrid
         (r4 & H4 & S4 & J4) Hrow.
  rewrite (run_complete w a key c id rid r3 kv r4 row rows
             Hcfg Ha Hk Hup Hin Hid H3 S3 J3 L3 Hrid H4 S4 J4 Hrow).
  repeat split.
Qed.

(** The theorem at the end-to-end scenario: 201, 201 with an id, 202 with a
    run id, 200 with one complete row. *)
Lemma full_run_witness :
  sent (fst (run_script world_end_to_end)) =
    [req1 world_end_to_end "service" sample_file;
     req2 world_end_to_end "service" sample_file;
     invoke_request "service" doc_1; status_request "service" run_1]
  /\ snd (run_script world_end_to_end) = Ret tt
  /\ exit_code (snd (run_script world_end_to_end)) = 0.
Proof.
  apply (full_run_exits_0 world_end_to_end "anon" "service" sample_file
           doc_1 run_1 completed_row []).
  - repeat split; reflexivity.
  - discriminate.
  - discriminate.
  - exists stored. split; [reflexivity | right; reflexivity].
  - exists inserted, (JDict [("id", doc_1)]), [("id", doc_1)].
    split; [reflexivity|]. split; [right; reflexivity|].
    split; [reflexivity|]. split; [left; reflexivity | reflexivity].
  - reflexivity.
  - exists queued, [("run_id", run_1)]. repeat split; reflexivity.
  - reflexivity.
  - exists one_row. repeat split; reflexivity.
  - reflexivity.
Defined.

(** C1, as stated, fails for the fourth call: the status read is answered
    with 500, nothing about it is printed, and the run still ends normally,
    with exit code 0. *)
Lemma refused_status_read_exits_0 :
  reply4 world_status_refused "service" sample_file doc_1 run_1 = Resp refused
  /\ status_code refused = 500
  /\ fst (run_script world_status_refused) =
       (upto_status world_status_refused "service" sample_file doc_1 run_1 queued
        ++ closing_lines doc_1 run_1)%list
  /\ snd (run_script world_status_refused) = Ret tt
  /\ exit_code (snd (run_script world_status_refused)) = 0.
Proof. repeat split; reflexivity. Qed.

(** C1, amended.  A status other than 200/201 for the upload or for the
    insert, and a status other than 202 for the function call, is printed
    and the script exits with code 1.  A status other than 200 for the
    status read is not printed and changes nothing: the run goes from the
    request straight to its closing lines and ends with exit code 0. *)
Theorem failed_call_handling (w : world) (a key : string) (c : list byte) :
  configured w a key c -> a <> "" -> key <> "" ->
  (forall r,
      reply1 w key c = Resp r -> ~ is_200_201 r ->
      In (EPrint [Lit "ERROR: Failed to upload to storage: ";
                  Fmt (JInt (status_code r))]) (fst (run_script w))
      /\ snd (run_script w) = Exit 1)
  /\ (forall r,
        upload_ok w key c ->
        reply2 w key c = Resp r -> ~ is_200_201 r ->
        In (EPrint [Lit "ERROR: Failed to create document record: ";
                    Fmt (JInt (status_code r))]) (fst (run_script w))
        /\ snd (run_script w) = Exit 1)
  /\ (forall id r,
        upload_ok w key c -> insert_ok w key c id -> truthy id = true ->
        reply3 w key c id = Resp r -> status_code r <> 202 ->
        In (EPrint [Lit (nl ++ "✗ Run failed with status ");
                    Fmt (JInt (status_code r))]) (fst (run_script w))
        /\ snd (run_script w) = Exit 1)
  /\ (forall id rid r,
        upload_ok w key c -> insert_ok w key c id -> truthy id = true ->
        invoke_ok w key c id rid -> truthy rid = true ->
        reply4 w key c id rid = Resp r -> status_code r <> 200 ->
        (exists r3,
            fst (run_script w) =
              (upto_status w key c id rid r3 ++ closing_lines id rid)%list)
        /\ snd (run_script w) = Ret tt
        /\ exit_code (snd (run_script w)) = 0).
Proof.
  intros Hcfg Ha Hk.
  assert (split_status : forall r, ~ is_200_201 r ->
            status_code r <> 200 /\ status_code r <> 201).
  { intros r S. split; intros E; apply S; [now left | now right]. }
  split; [ | split; [ | split ] ].
  - intros r H1 S1. destruct (split_status r S1) as [N200 N201].
    rewrite (run_upload_rejected w a key c r Hcfg Ha Hk H1 N200 N201).
    split; [ | reflexivity ].
    cbn [fst]. apply in_or_app. right. now left.
  - intros r Hup H2 S2. destruct (split_status r S2) as [N200 N201].
    rewrite (run_insert_rejected w a key c r Hcfg Ha Hk Hup H2 N200 N201).
    split; [ | reflexivity ].
    cbn [fst]. apply in_or_app. right. now left.
  - intros id r Hup Hin Hid H3 S3.
    rewrite (run_invoke_rejected w a key c id r Hcfg Ha Hk Hup Hin Hid H3 S3).
    split; [ | reflexivity ].
    cbn [fst]. apply in_or_app. right. apply in_or_app. right. now left.
  - intros id rid r Hup Hin Hid (r3 & kv & H3 & S3 & J3 & L3) Hrid H4 S4.
    rewrite (run_status_not_200 w a key c id rid r3 kv r
               Hcfg Ha Hk Hup Hin Hid H3 S3 J3 L3 Hrid H4 S4).
    split; [ now exists r3 | split; reflexivity ].
Qed.

(** The theorem at a run whose upload is answered with 500, and at a run
    whose status read is answered with 500. *)
Lemma failed_call_witness :
  (In (EPrint [Lit "ERROR: Failed to upload to storage: "; Fmt (JInt 500)])
      (fst (run_script world_upload_refused))
   /\ snd (run_script world_upload_refused) = Exit 1)
  /\ ((exists r3,
         fst (run_script world_status_refused) =
           (upto_status world_status_refused "service" sample_file doc_1 run_1 r3
            ++ closing_lines doc_1 run_1)%list)
      /\ snd (run_script world_status_refused) = Ret tt
      /\ exit_code (snd (run_script world_status_refused)) = 0).
Proof.
  split.
  - apply (proj1 (failed_call_handling world_upload_refused
                    "anon" "service" sample_file
                    (conj eq_refl (conj eq_refl eq_refl))
                    ltac:(discriminate) ltac:(discriminate)) refused).
    + reflexivity.
    + intros [H | H]; discriminate H.
  - apply (proj2 (proj2 (proj2 (failed_call_handling world_status_refused
                    "anon" "service" sample_file
                    (conj eq_refl (conj eq_refl eq_refl))
                    ltac:(discriminate) ltac:(discriminate))))
             doc_1 run_1 refused).
    + exists stored. split; [reflexivity | right; reflexivity].
    + exists inserted, (JDict [("id", doc_1)]), [("id", doc_1)].
      split; [reflexivity|]. split; [right; reflexivity|].
      split; [reflexivity|]. split; [left; reflexivity | reflexivity].
    + reflexivity.
    + exists queued, [("run_id", run_1)]. repeat split; reflexivity.
    + reflexivity.
    + reflexivity.
    + discriminate.
Defined.

(** ** The storage path *)

(** C7, as stated, fails: two runs whose [os.urandom(4)] returns the same
    four bytes build the same storage path. *)
Lemma same_draw_same_path :
  world_end_to_end <> world_status_refused
  /\ path_of world_end_to_end = path_of world_status_refused.
Proof.
  split; [ | reflexivity ].
  intros E.
  apply (f_equal (fun w => http w [req1 w "k" []; req1 w "k" []; req1 w "k" []]
                                (req1 w "k" []))) in E.
  discriminate E.
Qed.

(** C7, amended.  The storage paths of two runs differ exactly when the
    bytes returned by [os.urandom(4)] in the two runs differ. *)
Theorem paths_differ_iff_draws_differ (w1 w2 : world) :
  path_of w1 <> path_of w2 <-> urandom4 w1 <> urandom4 w2.
Proof.
  unfold path_of. split.
  - intros H E. apply H. now rewrite E.
  - intros H E. apply H. now apply storage_path_inj.
Qed.

(** ** Timeouts *)

(** C8. Only the function invocation carries a timeout, and it is 30
    seconds.  In every run the requests sent are, in order, the upload, the
    insert, the function invocation and the status read (or the first few of
    them), with no timeout, no timeout, 30 seconds, no timeout.  The third
    call is really made: once the document record exists the run sends the
    invocation, with its timeout of 30 seconds, as its third request; and a
    run that is accepted sends all four, the last without a timeout. *)
Theorem only_third_call_has_timeout (w : world) :
  (exists n key c id rid,
      sent (fst (run_script w)) =
        firstn n [req1 w key c; req2 w key c; invoke_request key id;
                  status_request key rid]
      /\ map timeout (sent (fst (run_script w))) =
           firstn n [None; None; Some 30; None])
  /\ (forall a key c id,
        document_created w a key c id ->
        exists later,
          sent (fst (run_script w)) =
            req1 w key c :: req2 w key c :: invoke_request key id :: later
          /\ map timeout (firstn 3 (sent (fst (run_script w)))) =
               [None; None; Some 30])
  /\ (forall a key c id rid,
        run_accepted w a key c id rid ->
        sent (fst (run_script w)) =
          [req1 w key c; req2 w key c; invoke_request key id;
           status_request key rid]
        /\ map timeout (sent (fst (run_script w))) =
             [None; None; Some 30; None]).
Proof.
  split; [ | split ].
  - destruct (sent_shape w) as (n & key & c & id & rid & H & _).
    exists n, key, c, id, rid. split; [ exact H | ].
    rewrite H.
    destruct n as [|[|[|[|n]]]]; cbn [firstn map]; rewrite ?firstn_nil;
      reflexivity.
  - intros a key c id Hdoc.
    destruct (run_reaches_invoke w a key c id Hdoc) as [e He].
    exists (sent e). rewrite He.
    unfold upto_invoke, upto_insert, upto_upload, banner.
    rewrite !sent_app. cbn [sent app firstn map]. split; reflexivity.
  - intros a key c id rid Hacc.
    rewrite (run_accepted_sends w a key c id rid Hacc).
    split; reflexivity.
Qed.

(** The theorem at a run whose function call is refused, and at the
    end-to-end scenario. *)
Lemma only_third_call_witness :
  (exists later,
      sent (fst (run_script world_invoke_refused)) =
        req1 world_invoke_refused "service" sample_file
        :: req2 world_invoke_refused "service" sample_file
        :: invoke_request "service" doc_1 :: later
      /\ map timeout (firstn 3 (sent (fst (run_script world_invoke_refused)))) =
           [None; None; Some 30])
  /\ sent (fst (run_script world_end_to_end)) =
       [req1 world_end_to_end "service" sample_file;
        req2 world_end_to_end "service" sample_file;
        invoke_request "service" doc_1; status_request "service" run_1]
  /\ map timeout (sent (fst (run_script world_end_to_end))) =
       [None; None; Some 30; None].
Proof.
  split.
  - apply (proj1 (proj2 (only_third_call_has_timeout world_invoke_refused))
             "anon" "service" sample_file doc_1).
    show_created.
  - apply (proj2 (proj2 (only_third_call_has_timeout world_end_to_end))
             "anon" "service" sample_file doc_1 run_1).
    show_accepted.
Defined.

(** ** The anonymous key *)

(** C9. Once the anonymous key is set to a non-empty value, that value
    changes nothing: the run with another non-empty value has the same trace
    (the same requests and printed lines) and the same outcome; and every
    request of a run carries the service-role key, and only it, in its
    credential headers. *)
Theorem anon_key_is_not_used (w : world) (a1 a2 : string) :
  env_anon w = Some a1 -> a1 <> "" -> a2 <> "" ->
  run_script (with_anon w a2) = run_script w
  /\ (forall r, In r (sent (fst (run_script w))) ->
        exists key,
          env_service w = Some key
          /\ (auth_headers r = [("Authorization", "Bearer " ++ key)]
              \/ auth_headers r =
                   [("apikey", key); ("Authorization", "Bearer " ++ key)])).
Proof.
  intros Ha Ha1 Ha2. split.
  - assert (T1 : env_truthy (env_anon w) = true)
      by (rewrite Ha; now apply env_truthy_some).
    assert (T2 : env_truthy (env_anon (with_anon w a2)) = true)
      by now apply env_truthy_some.
    destruct (env_truthy (env_service w)) eqn:Ts.
    + destruct (env_service w) as [key|] eqn:Hk; [ | discriminate Ts ].
      assert (Hkne : key <> "") by (intros ->; discriminate Ts).
      rewrite (run_main (with_anon w a2) a2 key eq_refl Ha2 Hk Hkne).
      rewrite (run_main w a1 key Ha Ha1 Hk Hkne).
      apply main_ignores_anon.
    + rewrite (run_no_service w T1 Ts).
      apply (run_no_service (with_anon w a2) T2 Ts).
  - intros r Hr.
    destruct (sent_shape w) as (n & key & c & id & rid & H & Hn).
    rewrite H in Hr.
    destruct Hn as [-> | Hk]; [ destruct Hr | ].
    exists key. split; [ exact Hk | ].
    destruct n as [|[|[|[|n]]]]; cbn [firstn In] in Hr;
      rewrite ?firstn_nil in Hr; cbn [In] in Hr;
      repeat (destruct Hr as [<- | Hr]; [ auto | ]); destruct Hr.
Qed.

(** The theorem at the end-to-end scenario, with another anonymous key. *)
Lemma anon_key_witness :
  run_script (with_anon world_end_to_end "another") = run_script world_end_to_end
  /\ (forall r, In r (sent (fst (run_script world_end_to_end))) ->
        exists key,
          env_service world_end_to_end = Some key
          /\ (auth_headers r = [("Authorization", "Bearer " ++ key)]
              \/ auth_headers r =
                   [("apikey", key); ("Authorization", "Bearer " ++ key)])).
Proof.
  apply (anon_key_is_not_used world_end_to_end "anon" "another").
  - reflexivity.
  - discriminate.
  - discriminate.
Defined.

(** * Further properties of the script *)

(** ** Failures before and between the calls *)

(** X1. With both keys set, a test file that cannot be opened stops the
    run with an OSError nobody catches, after the banner and the step 1
    line and before any request is sent. *)
Theorem unreadable_file_stops_before_network (w : world) (a key : string) :
  env_anon w = Some a -> a <> "" ->
  env_service w = Some key -> key <> "" ->
  test_file w = None ->
  run_script w = ((banner ++ [step1_line])%list, Raise OSError)
  /\ sent (fst (run_script w)) = []
  /\ exit_code (snd (run_script w)) = 1.
Proof.
  intros Ha Hane Hk Hkne Hf.
  rewrite (run_main w a key Ha Hane Hk Hkne).
  rewrite (main_upload_raises key w _ _ (upload_unreadable key w banner Hf)).
  repeat split.
Qed.

Lemma unreadable_file_witness :
  run_script world_unreadable_file =
    ((banner ++ [step1_line])%list, Raise OSError)
  /\ sent (fst (run_script world_unreadable_file)) = []
  /\ exit_code (snd (run_script world_unreadable_file)) = 1.
Proof.
  apply (unreadable_file_stops_before_network world_unreadable_file
           "anon" "service").
  - reflexivity.
  - discriminate.
  - reflexivity.
  - discriminate.
  - reflexivity.
Defined.

(** X2. A call that gets no response (connection error, timeout) ends the
    run with the exception of the HTTP library, right after that request:
    no later request is sent and nothing more is printed.  This holds for
    each of the four calls. *)
Theorem no_response_ends_the_run (w : world) (a key : string) (c : list byte) :
  configured w a key c -> a <> "" -> key <> "" ->
  (reply1 w key c = NoResp ->
     run_script w = (upto_upload w key c, Raise RequestException))
  /\ (upload_ok w key c -> reply2 w key c = NoResp ->
        run_script w = (upto_insert w key c, Raise RequestException))
  /\ (forall id,
        document_created w a key c id -> reply3 w key c id = NoResp ->
        run_script w = (upto_invoke w key c id, Raise RequestException))
  /\ (forall id rid,
        run_accepted w a key c id rid -> reply4 w key c id rid = NoResp ->
        exists r3,
          run_script w =
            (upto_status w key c id rid r3, Raise RequestException)).
Proof.
  intros Hcfg Hane Hkne. pose proof Hcfg as (Ha & Hk & Hc).
  split; [ | split; [ | split ] ].
  - intros H1. rewrite (run_main w a key Ha Hane Hk Hkne).
    rewrite (main_upload_raises key w _ _
               (upload_no_response key w banner c Hc H1)).
    same_run.
  - intros (r1 & H1 & S1) H2. rewrite (run_main w a key Ha Hane Hk Hkne).
    rewrite (main_upload_raises key w _ _
               (insert_no_response key w banner c Hc r1 H1 S1 H2)).
    same_run.
  - intros id Hdoc H3.
    destruct (created_returns w a key c id Hdoc) as [-> Hup].
    pose proof Hdoc as (_ & _ & Hid).
    assert (H3' : http w
              (sent (upto_insert w key c
                     ++ [EPrint [Lit "✓ Created document record: "; Fmt id]])%list)
              (invoke_request key id) = NoResp) by exact H3.
    rewrite (main_invoke_raises key w _ id _ _ Hup Hid
               (invoke_no_response key id w _ H3')).
    same_run.
  - intros id rid Hacc H4.
    destruct (run_reaches_status w a key c id rid Hacc) as (r3 & H3 & ->).
    exists r3.
    assert (H4' : http w
              (sent (upto_invoke w key c id ++ response_lines r3
                     ++ accepted_lines rid ++ [ESleep 2])%list)
              (status_request key rid) = NoResp) by exact H4.
    rewrite (check_no_response key rid w _ H4').
    same_run.
Qed.

Lemma no_response_witness :
  run_script world_upload_silent =
    (upto_upload world_upload_silent "service" sample_file,
     Raise RequestException)
  /\ run_script world_invoke_silent =
       (upto_invoke world_invoke_silent "service" sample_file doc_1,
        Raise RequestException).
Proof.
  split.
  - apply (proj1 (no_response_ends_the_run world_upload_silent
                    "anon" "service" sample_file
                    (conj eq_refl (conj eq_refl eq_refl))
                    ltac:(discriminate) ltac:(discriminate))).
    reflexivity.
  - apply (proj1 (proj2 (proj2 (no_response_ends_the_run world_invoke_silent
                    "anon" "service" sample_file
                    (conj eq_refl (conj eq_refl eq_refl))
                    ltac:(discriminate) ltac:(discriminate))))
             doc_1).
    + show_created.
    + reflexivity.
Defined.

(** ** Unusable answers to the insert *)

(** X3. An insert answered with 200 or 201 whose body is not JSON stops
    the run with a JSONDecodeError nobody catches, right after the insert
    request. *)
Theorem insert_body_not_json_raises (w : world) (a key : string)
    (c : list byte) (r : response) :
  uploaded w a key c ->
  reply2 w key c = Resp r -> is_200_201 r ->
  json_body r = None ->
  run_script w = (upto_insert w key c, Raise JSONDecodeError).
Proof.
  intros ((Ha & Hk & Hc) & Hane & Hkne & (r1 & H1 & S1)) H2 S2 J2.
  rewrite (run_main w a key Ha Hane Hk Hkne).
  rewrite (main_upload_raises key w _ _
             (insert_not_json key w banner c Hc r1 H1 S1 r H2 S2 J2)).
  same_run.
Qed.

Lemma insert_body_not_json_witness :
  run_script world_insert_not_json =
    (upto_insert world_insert_not_json "service" sample_file,
     Raise JSONDecodeError).
Proof.
  apply (insert_body_not_json_raises world_insert_not_json "anon" "service"
           sample_file not_json_201).
  - show_uploaded.
  - reflexivity.
  - right; reflexivity.
  - reflexivity.
Defined.

(** X4. An insert answered with 200 or 201 and a JSON body whose record
    (the body itself, or the first element when the body is a list) is not
    an object stops the run with a TypeError nobody catches: the script
    subscripts the record with 'id' without looking at its type. *)
Theorem insert_record_not_object_raises (w : world) (a key : string)
    (c : list byte) (r : response) (body record : json) :
  uploaded w a key c ->
  reply2 w key c = Resp r -> is_200_201 r ->
  json_body r = Some body ->
  unwrapped body = Some record -> is_dict record = false ->
  run_script w = (upto_insert w key c, Raise TypeError).
Proof.
  intros ((Ha & Hk & Hc) & Hane & Hkne & (r1 & H1 & S1)) H2 S2 J2 U D.
  rewrite (run_main w a key Ha Hane Hk Hkne).
  rewrite (main_upload_raises key w _ _
             (insert_not_object key w banner c Hc r1 H1 S1 r H2 S2
                body record J2 U D)).
  same_run.
Qed.

Lemma insert_record_not_object_witness :
  run_script world_insert_text =
    (upto_insert world_insert_text "service" sample_file, Raise TypeError).
Proof.
  apply (insert_record_not_object_raises world_insert_text "anon" "service"
           sample_file text_201 (JStr "ok") (JStr "ok")).
  - show_uploaded.
  - reflexivity.
  - right; reflexivity.
  - reflexivity.
  - reflexivity.
  - reflexivity.
Defined.

(** X5. An insert that succeeds with an 'id' that is false in Python
    (null, false, 0, an empty string, list or object) makes the script exit
    with code 1 right after printing the created line: nothing says why,
    and the function endpoint is never called. *)
Theorem falsy_id_exits_without_invocation (w : world) (a key : string)
    (c : list byte) (id : json) :
  uploaded w a key c -> insert_ok w key c id ->
  truthy id = false ->
  run_script w =
    ((upto_insert w key c
      ++ [EPrint [Lit "✓ Created document record: "; Fmt id]])%list,
     Exit 1)
  /\ sent (fst (run_script w)) = [req1 w key c; req2 w key c].
Proof.
  intros (Hcfg & Hane & Hkne & Hup) Hin Hid.
  rewrite (run_id_falsy w a key c id Hcfg Hane Hkne Hup Hin Hid).
  split; reflexivity.
Qed.

Lemma falsy_id_witness :
  run_script world_null_id =
    ((upto_insert world_null_id "service" sample_file
      ++ [EPrint [Lit "✓ Created document record: "; Fmt JNone]])%list,
     Exit 1)
  /\ sent (fst (run_script world_null_id)) =
       [req1 world_null_id "service" sample_file;
        req2 world_null_id "service" sample_file].
Proof.
  apply (falsy_id_exits_without_invocation world_null_id "anon" "service"
           sample_file JNone).
  - show_uploaded.
  - show_insert_ok.
  - reflexivity.
Defined.

(** ** Unusable answers to the function call *)

(** X6. A function call answered with 202 stops the run with an uncaught
    exception when the body cannot be used: a JSONDecodeError when it is not
    JSON, an AttributeError when it is JSON but not an object (the script
    calls [.get] on it).  Either way the status and the body have been
    printed and the status read is not attempted. *)
Theorem invoke_body_unusable_raises (w : world) (a key : string)
    (c : list byte) (id : json) (r : response) :
  document_created w a key c id ->
  reply3 w key c id = Resp r -> status_code r = 202 ->
  (json_body r = None ->
     run_script w =
       ((upto_invoke w key c id ++ response_lines r)%list,
        Raise JSONDecodeError))
  /\ (forall v, json_body r = Some v -> is_dict v = false ->
        run_script w =
          ((upto_invoke w key c id ++ response_lines r)%list,
           Raise AttributeError)).
Proof.
  intros Hdoc H3 S3.
  destruct (created_returns w a key c id Hdoc) as [-> Hup].
  pose proof Hdoc as (_ & _ & Hid).
  assert (H3' : http w
            (sent (upto_insert w key c
                   ++ [EPrint [Lit "✓ Created document record: "; Fmt id]])%list)
            (invoke_request key id) = Resp r) by exact H3.
  split.
  - intros J.
    rewrite (main_invoke_raises key w _ id _ _ Hup Hid
               (invoke_not_json key id w _ r H3' S3 J)).
    same_run.
  - intros v J D.
    rewrite (main_invoke_raises key w _ id _ _ Hup Hid
               (invoke_not_object key id w _ r H3' S3 v J D)).
    same_run.
Qed.

Lemma invoke_body_unusable_witness :
  run_script world_invoke_not_json =
    ((upto_invoke world_invoke_not_json "service" sample_file doc_1
      ++ response_lines not_json_202)%list,
     Raise JSONDecodeError)
  /\ run_script world_invoke_list =
       ((upto_invoke world_invoke_list "service" sample_file doc_1
         ++ response_lines list_202)%list,
        Raise AttributeError).
Proof.
  split.
  - apply (proj1 (invoke_body_unusable_raises world_invoke_not_json
                    "anon" "service" sample_file doc_1 not_json_202
                    ltac:(show_created) eq_refl eq_refl)).
    reflexivity.
  - apply (proj2 (invoke_body_unusable_raises world_invoke_list
                    "anon" "service" sample_file doc_1 list_202
                    ltac:(show_created) eq_refl eq_refl)
             (JList [run_1])).
    + reflexivity.
    + reflexivity.
Defined.

(** X7. A function call answered with 202 and an object whose 'run_id' is
    absent or false in Python still prints the three acceptance lines, with
    that value as the run id, and then the script exits with code 1: the
    status read is not attempted. *)
Theorem falsy_run_id_exits_after_acceptance (w : world) (a key : string)
    (c : list byte) (id : json) (r : response) (kv : list (string * json)) :
  document_created w a key c id ->
  reply3 w key c id = Resp r -> status_code r = 202 ->
  json_body r = Some (JDict kv) ->
  truthy (got_run_id kv) = false ->
  run_script w =
    ((upto_invoke w key c id ++ response_lines r
      ++ accepted_lines (got_run_id kv))%list,
     Exit 1)
  /\ sent (fst (run_script w)) =
       [req1 w key c; req2 w key c; invoke_request key id].
Proof.
  intros ((Hcfg & Hane & Hkne & Hup) & Hin & Hid) H3 S3 J3 T.
  rewrite (run_invoke_accepted_falsy w a key c id r kv
             Hcfg Hane Hkne Hup Hin Hid H3 S3 J3 T).
  split; reflexivity.
Qed.

Lemma falsy_run_id_witness :
  run_script world_null_run_id =
    ((upto_invoke world_null_run_id "service" sample_file doc_1
      ++ response_lines null_run_id ++ accepted_lines JNone)%list,
     Exit 1)
  /\ sent (fst (run_script world_null_run_id)) =
       [req1 world_null_run_id "service" sample_file;
        req2 world_null_run_id "service" sample_file;
        invoke_request "service" doc_1].
Proof.
  apply (falsy_run_id_exits_after_acceptance world_null_run_id
           "anon" "service" sample_file doc_1 null_run_id
           [("run_id", JNone)]).
  - show_created.
  - reflexivity.
  - reflexivity.
  - reflexivity.
  - reflexivity.
Defined.

(** ** The status read *)

Section StatusRead.
Variables (w : world) (a key : string) (c : list byte) (id rid : json).
Variable r : response.
Hypothesis accepted : run_accepted w a key c id rid.
Hypothesis answered : reply4 w key c id rid = Resp r.

Lemma status_read_from (r3 : response) :
  http w
    (sent (upto_invoke w key c id ++ response_lines r3
           ++ accepted_lines rid ++ [ESleep 2])%list)
    (status_request key rid) = Resp r.
Proof. exact answered. Qed.

Hypothesis ok : status_code r = 200.

Lemma run_status_falsy (v : json) :
  json_body r = Some v -> truthy v = false ->
  exists r3,
    run_script w =
      ((upto_status w key c id rid r3 ++ closing_lines id rid)%list, Ret tt).
Proof.
  intros J T.
  destruct (run_reaches_status w a key c id rid accepted) as (r3 & _ & ->).
  exists r3.
  rewrite (check_falsy key rid w _ r (status_read_from r3) ok v J T).
  same_run.
Qed.

Lemma run_status_not_json :
  json_body r = None ->
  exists r3,
    run_script w = (upto_status w key c id rid r3, Raise JSONDecodeError).
Proof.
  intros J.
  destruct (run_reaches_status w a key c id rid accepted) as (r3 & _ & ->).
  exists r3.
  rewrite (check_not_json key rid w _ r (status_read_from r3) ok J).
  same_run.
Qed.

Lemma run_status_row_not_dict (row : json) (rows : list json) :
  json_body r = Some (JList (row :: rows)) -> is_dict row = false ->
  exists r3,
    run_script w = (upto_status w key c id rid r3, Raise TypeError).
Proof.
  intros J D.
  destruct (run_reaches_status w a key c id rid accepted) as (r3 & _ & ->).
  exists r3.
  rewrite (check_row_not_dict key rid w _ r (status_read_from r3) ok
             row rows J D).
  same_run.
Qed.

Lemma run_status_dict_body (item : string * json)
    (items : list (string * json)) :
  json_body r = Some (JDict (item :: items)) ->
  exists r3,
    run_script w = (upto_status w key c id rid r3, Raise KeyError).
Proof.
  intros J.
  destruct (run_reaches_status w a key c id rid accepted) as (r3 & _ & ->).
  exists r3.
  rewrite (check_dict_body key rid w _ r (status_read_from r3) ok
             item items J).
  same_run.
Qed.

Lemma run_status_incomplete_row (fields : list (string * json))
    (rows : list json) :
  json_body r = Some (JList (JDict fields :: rows)) ->
  complete_row (JDict fields) = false ->
  snd (run_script w) = Raise KeyError.
Proof.
  intros J Hrow.
  destruct (run_reaches_status w a key c id rid accepted) as (r3 & _ & ->).
  pose proof (check_incomplete_row key rid w _ r (status_read_from r3) ok
                fields rows J Hrow) as E.
  destruct (check_run_status key rid w _) as [tr4 o4].
  cbn [snd] in E. subst o4. reflexivity.
Qed.
End StatusRead.

(** X8. A status read answered with 200 and a body that is false in
    Python (an empty row list above all) prints nothing about the run: the
    script goes from the request straight to its closing lines and ends
    with exit code 0. *)
Theorem empty_rows_print_nothing (w : world) (a key : string) (c : list byte)
    (id rid : json) (r : response) (v : json) :
  run_accepted w a key c id rid ->
  reply4 w key c id rid = Resp r -> status_code r = 200 ->
  json_body r = Some v -> truthy v = false ->
  (exists r3,
      fst (run_script w) =
        (upto_status w key c id rid r3 ++ closing_lines id rid)%list)
  /\ snd (run_script w) = Ret tt
  /\ exit_code (snd (run_script w)) = 0.
Proof.
  intros Hacc H4 S4 J T.
  destruct (run_status_falsy w a key c id rid r Hacc H4 S4 v J T) as [r3 ->].
  split; [ now exists r3 | split; reflexivity ].
Qed.

Lemma empty_rows_witness :
  (exists r3,
      fst (run_script world_no_rows) =
        (upto_status world_no_rows "service" sample_file doc_1 run_1 r3
         ++ closing_lines doc_1 run_1)%list)
  /\ snd (run_script world_no_rows) = Ret tt
  /\ exit_code (snd (run_script world_no_rows)) = 0.
Proof.
  apply (empty_rows_print_nothing world_no_rows "anon" "service" sample_file
           doc_1 run_1 no_rows (JList [])).
  - show_accepted.
  - reflexivity.
  - reflexivity.
  - reflexivity.
  - reflexivity.
Defined.

(** X9. A status read answered with 200 and a row list whose first row is
    an object lacking one of status, total_operations, completed_operations,
    failed_operations, started_at stops the run with a KeyError nobody
    catches; the closing lines are not reached and the exit code is 1. *)
Theorem incomplete_row_raises_KeyError (w : world) (a key : string)
    (c : list byte) (id rid : json) (r : response)
    (fields : list (string * json)) (rows : list json) :
  run_accepted w a key c id rid ->
  reply4 w key c id rid = Resp r -> status_code r = 200 ->
  json_body r = Some (JList (JDict fields :: rows)) ->
  complete_row (JDict fields) = false ->
  snd (run_script w) = Raise KeyError
  /\ exit_code (snd (run_script w)) = 1.
Proof.
  intros Hacc H4 S4 J Hrow.
  rewrite (run_status_incomplete_row w a key c id rid r Hacc H4 S4
             fields rows J Hrow).
  split; reflexivity.
Qed.

Lemma incomplete_row_witness :
  snd (run_script world_incomplete_row) = Raise KeyError
  /\ exit_code (snd (run_script world_incomplete_row)) = 1.
Proof.
  apply (incomplete_row_raises_KeyError world_incomplete_row "anon" "service"
           sample_file doc_1 run_1 incomplete_row
           [("state", JStr "queued")] []).
  - show_accepted.
  - reflexivity.
  - reflexivity.
  - reflexivity.
  - reflexivity.
Defined.

(** X10. A status read answered with 200 stops the run with an uncaught
    exception, right after the request, when the body cannot be used: a
    JSONDecodeError when it is not JSON, a TypeError when the first row of
    the list is not an object, a KeyError when the body is a non-empty
    object instead of a list. *)
Theorem status_body_unusable_raises (w : world) (a key : string)
    (c : list byte) (id rid : json) (r : response) :
  run_accepted w a key c id rid ->
  reply4 w key c id rid = Resp r -> status_code r = 200 ->
  (json_body r = None ->
     exists r3,
       run_script w = (upto_status w key c id rid r3, Raise JSONDecodeError))
  /\ (forall row rows,
        json_body r = Some (JList (row :: rows)) -> is_dict row = false ->
        exists r3,
          run_script w = (upto_status w key c id rid r3, Raise TypeError))
  /\ (forall item items,
        json_body r = Some (JDict (item :: items)) ->
        exists r3,
          run_script w = (upto_status w key c id rid r3, Raise KeyError)).
Proof.
  intros Hacc H4 S4. split; [ | split ].
  - now apply run_status_not_json with (a := a).
  - intros row rows. now apply run_status_row_not_dict with (a := a).
  - intros item items. now apply run_status_dict_body with (a := a).
Qed.

Lemma status_body_unusable_witness :
  (exists r3,
      run_script world_status_not_json =
        (upto_status world_status_not_json "service" sample_file doc_1 run_1 r3,
         Raise JSONDecodeError))
  /\ (exists r3,
        run_script world_text_row =
          (upto_status world_text_row "service" sample_file doc_1 run_1 r3,
           Raise TypeError))
  /\ (exists r3,
        run_script world_status_object =
          (upto_status world_status_object "service" sample_file doc_1 run_1 r3,
           Raise KeyError)).
Proof.
  split; [ | split ].
  - apply (proj1 (status_body_unusable_raises world_status_not_json
                    "anon" "service" sample_file doc_1 run_1 not_json_200
                    ltac:(show_accepted) eq_refl eq_refl)).
    reflexivity.
  - apply (proj1 (proj2 (status_body_unusable_raises world_text_row
                    "anon" "service" sample_file doc_1 run_1 text_row
                    ltac:(show_accepted) eq_refl eq_refl))
             (JStr "completed") []).
    + reflexivity.
    + reflexivity.
  - apply (proj2 (proj2 (status_body_unusable_raises world_status_object
                    "anon" "service" sample_file doc_1 run_1 object_200
                    ltac:(show_accepted) eq_refl eq_refl))
             ("message", JStr "denied") []).
    reflexivity.
Defined.

(** X11. When the first row has the five mandatory fields, the run prints
    the six status lines and then the closing lines, which name the run id
    returned by the function call and the document id returned by the
    insert.  A row without 'completed_at' is fine: that line then reads
    N/A. *)
Theorem complete_row_is_reported (w : world) (a key : string) (c : list byte)
    (id rid : json) (r : response) (row : json) (rows : list json) :
  run_accepted w a key c id rid ->
  reply4 w key c id rid = Resp r -> status_code r = 200 ->
  json_body r = Some (JList (row :: rows)) ->
  complete_row row = true ->
  (exists r3,
      fst (run_script w) =
        (upto_status w key c id rid r3 ++ status_lines row
         ++ closing_lines id rid)%list)
  /\ In (EPrint [Lit "Run ID: "; Fmt rid]) (fst (run_script w))
  /\ In (EPrint [Lit "Document ID: "; Fmt id]) (fst (run_script w))
  /\ (forall fields,
        row = JDict fields -> dict_lookup "completed_at" fields = None ->
        In (EPrint [Lit "Completed: "; Fmt (JStr "N/A")])
           (fst (run_script w))).
Proof.
  intros (((Hcfg & Hane & Hkne & Hup) & Hin & Hid)
          & (r3 & kv & H3 & S3 & J3 & L3) & Hrid) H4 S4 J4 Hrow.
  rewrite (run_complete w a key c id rid r3 kv r row rows
             Hcfg Hane Hkne Hup Hin Hid H3 S3 J3 L3 Hrid H4 S4 J4 Hrow).
  cbn [fst]. split; [ now exists r3 | ].
  split; [ | split ].
  - rewrite !in_app_iff. right. right. cbn. auto.
  - rewrite !in_app_iff. right. right. cbn. auto.
  - intros fields -> L. rewrite !in_app_iff. right. left.
    unfold status_lines, field. rewrite L. cbn. auto 10.
Qed.

Lemma complete_row_witness :
  (exists r3,
      fst (run_script world_end_to_end) =
        (upto_status world_end_to_end "service" sample_file doc_1 run_1 r3
         ++ status_lines completed_row ++ closing_lines doc_1 run_1)%list)
  /\ In (EPrint [Lit "Run ID: "; Fmt run_1]) (fst (run_script world_end_to_end))
  /\ In (EPrint [Lit "Document ID: "; Fmt doc_1])
        (fst (run_script world_end_to_end))
  /\ (forall fields,
        completed_row = JDict fields ->
        dict_lookup "completed_at" fields = None ->
        In (EPrint [Lit "Completed: "; Fmt (JStr "N/A")])
           (fst (run_script world_end_to_end))).
Proof.
  apply (complete_row_is_reported world_end_to_end "anon" "service"
           sample_file doc_1 run_1 one_row completed_row []).
  - show_accepted.
  - reflexivity.
  - reflexivity.
  - reflexivity.
  - reflexivity.
Defined.

(** ** What holds of every run *)

(** X12. The exit code of a run is 0 or 1, and it is 0 only when the
    script reached its last line; every [exit] the script performs and
    every uncaught exception gives 1. *)
Theorem exit_code_is_0_or_1 (w : world) :
  (exit_code (snd (run_script w)) = 0 /\ snd (run_script w) = Ret tt)
  \/ exit_code (snd (run_script w)) = 1.
Proof.
  destruct (run_effects w) as (n & key & c & id & rid & _ & _ & _ & _ & _ & Hx).
  destruct (snd (run_script w)) as [[] | code | e].
  - left. split; reflexivity.
  - right. cbn [exit_code]. now apply Hx.
  - right. reflexivity.
Qed.

(** X13. A run that ends with exit code 0 has made all four calls, in
    order, with the service key and the file of its surroundings: no
    failure before the status read goes unnoticed in the exit code. *)
Theorem exit_0_needs_all_four_calls (w : world) :
  exit_code (snd (run_script w)) = 0 ->
  exists key c id rid,
    env_service w = Some key /\ test_file w = Some c
    /\ sent (fst (run_script w)) =
         [req1 w key c; req2 w key c; invoke_request key id;
          status_request key rid].
Proof.
  intros E.
  destruct (run_effects w)
    as (n & key & c & id & rid & Hs & _ & Hf & H4 & _ & Hx).
  assert (R : snd (run_script w) = Ret tt).
  { destruct (snd (run_script w)) as [[] | code | e]; cbn [exit_code] in E.
    - reflexivity.
    - rewrite (Hx code eq_refl) in E. discriminate E.
    - discriminate E. }
  specialize (H4 R). subst n.
  destruct Hf as [Hk Hc]; [ discriminate | ].
  exists key, c, id, rid. repeat split; assumption.
Qed.

Lemma exit_0_witness :
  exists key c id rid,
    env_service world_end_to_end = Some key
    /\ test_file world_end_to_end = Some c
    /\ sent (fst (run_script world_end_to_end)) =
         [req1 world_end_to_end key c; req2 world_end_to_end key c;
          invoke_request key id; status_request key rid].
Proof.
  apply (exit_0_needs_all_four_calls world_end_to_end).
  reflexivity.
Defined.

(** X14. In every run the requests are, in the order they are sent, a
    POST, a POST, a POST and a GET: only the status read is a read. *)
Theorem methods_are_post_post_post_get (w : world) :
  exists n,
    map method (sent (fst (run_script w))) = firstn n [POST; POST; POST; GET].
Proof.
  destruct (sent_shape w) as (n & key & c & id & rid & H & _).
  exists n. rewrite H.
  destruct n as [|[|[|[|n]]]]; cbn [firstn map]; rewrite ?firstn_nil;
    reflexivity.
Qed.

(** X15. Every request of every run goes to a URL that starts with the
    fixed base URL of the project. *)
Theorem requests_stay_under_base_url (w : world) (r : request) :
  In r (sent (fst (run_script w))) ->
  exists rest more, url r = Lit (SUPABASE_URL ++ rest) :: more.
Proof.
  intros Hr.
  destruct (sent_shape w) as (n & key & c & id & rid & H & _).
  rewrite H in Hr.
  destruct n as [|[|[|[|n]]]]; cbn [firstn In] in Hr;
    rewrite ?firstn_nil in Hr; cbn [In] in Hr;
    repeat (destruct Hr as [<- | Hr]; [ do 2 eexists; reflexivity | ]);
    destruct Hr.
Qed.

Lemma base_url_witness :
  exists rest more,
    url (status_request "service" run_1) = Lit (SUPABASE_URL ++ rest) :: more.
Proof.
  apply (requests_stay_under_base_url world_end_to_end
           (status_request "service" run_1)).
  cbn. auto.
Defined.

(** X16. Whenever the insert is sent, the record it carries describes the
    object just uploaded: the bytes uploaded are the contents of the test
    file, 'size_bytes' is their number, 'storage_path' is the path in the
    upload URL, and 'organization_id' is the fixed organization. *)
Theorem record_describes_upload (w : world) (r1 r2 : request)
    (later : list request) :
  sent (fst (run_script w)) = r1 :: r2 :: later ->
  exists path data kv,
    test_file w = Some data
    /\ body r1 = Data data
    /\ url r1 = [Lit (SUPABASE_URL ++ "/storage/v1/object/documents/" ++ path)]
    /\ body r2 = Json (JDict kv)
    /\ dict_lookup "storage_path" kv = Some (JStr path)
    /\ dict_lookup "size_bytes" kv = Some (JInt (Z.of_nat (List.length data)))
    /\ dict_lookup "organization_id" kv = Some (JStr ORGANIZATION_ID).
Proof.
  intros Hs.
  destruct (run_effects w) as (n & key & c & id & rid & H & _ & Hf & _).
  rewrite Hs in H.
  destruct n as [|[|n]]; cbn [firstn] in H; try discriminate H.
  destruct Hf as [_ Hc]; [ discriminate | ].
  injection H as -> -> _.
  exists (path_of w), c. eexists.
  repeat split; try reflexivity. exact Hc.
Qed.

Lemma record_describes_upload_witness :
  exists path data kv,
    test_file world_end_to_end = Some data
    /\ body (req1 world_end_to_end "service" sample_file) = Data data
    /\ url (req1 world_end_to_end "service" sample_file) =
         [Lit (SUPABASE_URL ++ "/storage/v1/object/documents/" ++ path)]
    /\ body (req2 world_end_to_end "service" sample_file) = Json (JDict kv)
    /\ dict_lookup "storage_path" kv = Some (JStr path)
    /\ dict_lookup "size_bytes" kv = Some (JInt (Z.of_nat (List.length data)))
    /\ dict_lookup "organization_id" kv = Some (JStr ORGANIZATION_ID).
Proof.
  apply (record_describes_upload world_end_to_end
           (req1 world_end_to_end "service" sample_file)
           (req2 world_end_to_end "service" sample_file)
           [invoke_request "service" doc_1; status_request "service" run_1]).
  reflexivity.
Defined.

(** X17. A run sleeps at most once, for 2 seconds, and it does so exactly
    when it goes on to the status read: the runs with four requests have
    slept, the others have not. *)
Theorem sleeps_once_before_status_read (w : world) :
  sleeps (fst (run_script w)) =
    if Nat.eqb (List.length (sent (fst (run_script w)))) 4 then [2] else [].
Proof.
  destruct (run_effects w)
    as (n & key & c & id & rid & Hs & Hn & _ & _ & Hz & _).
  rewrite Hz, Hs.
  destruct n as [|[|[|[|[|n]]]]]; try reflexivity. exfalso; lia.
Qed.

(** X18. A required variable that is set to the empty string counts as
    missing, and the checks run in the order of the source.  When the
    anonymous key is unset or empty the script prints the error line of the
    anonymous key, whatever the service key is; when the anonymous key is
    set and non-empty and the service key is unset or empty it prints the
    error line of the service key.  Either way that line is the whole
    output: the script exits with code 1 before any request. *)
Theorem empty_credential_counts_as_missing (w : world) :
  (env_anon w = None \/ env_anon w = Some "" ->
     run_script w =
       ([EPrint [Lit "ERROR: NEXT_PUBLIC_SUPABASE_PUBLISHABLE_OR_ANON_KEY not found in environment"]],
        Exit 1))
  /\ (forall a,
        env_anon w = Some a -> a <> "" ->
        env_service w = None \/ env_service w = Some "" ->
        run_script w =
          ([EPrint [Lit "ERROR: SUPABASE_SERVICE_ROLE_KEY not found in environment"]],
           Exit 1)).
Proof.
  split.
  - intros H. apply run_no_anon. destruct H as [-> | ->]; reflexivity.
  - intros a Ha Hane Hs. apply run_no_service.
    + rewrite Ha. now apply env_truthy_some.
    + destruct Hs as [-> | ->]; reflexivity.
Qed.

(** The theorem at a run with an empty anonymous key, and at a run with an
    empty service key. *)
Lemma empty_credential_witness :
  run_script world_empty_anon =
    ([EPrint [Lit "ERROR: NEXT_PUBLIC_SUPABASE_PUBLISHABLE_OR_ANON_KEY not found in environment"]],
     Exit 1)
  /\ run_script world_empty_service =
       ([EPrint [Lit "ERROR: SUPABASE_SERVICE_ROLE_KEY not found in environment"]],
        Exit 1).
Proof.
  split.
  - apply (proj1 (empty_credential_counts_as_missing world_empty_anon)).
    right. reflexivity.
  - apply (proj2 (empty_credential_counts_as_missing world_empty_service)
             "anon").
    + reflexivity.
    + discriminate.
    + right. reflexivity.
Defined.
